(** * Convergence checks of the IBC integration harness

    A shallow embedding of [integration_tests/ibc_utils.py]: the denomination
    derivation, the duplicate detectors, the channel readiness predicate, the
    timeout-expecting waiters and the balance reconciliation scenarios. *)

From Stdlib Require Import ZArith Lia.
From Stdlib Require Import Strings.String Strings.Ascii Init.Byte DecimalString.
From stdpp Require Import base tactics option list strings gmap.

Local Open Scope Z_scope.

(** ** Python values and outcomes *)

(** The exceptions the modelled code can raise.  [UnboundLocalError] carries
    the name of the local variable that was read before any assignment. *)
Inductive exn : Type :=
| AssertionError
| TimeoutError
| IndexError
| KeyError
| ValueError
| UnboundLocalError (name : string)
| TransientQueryError.

(** Python's class hierarchy has [UnboundLocalError] below [NameError]. *)
Definition is_NameError (e : exn) : bool :=
  match e with
  | UnboundLocalError _ => true
  | _ => false
  end.

(** Outcome of a call: a returned value or a raised exception. *)
Inductive result (A : Type) : Type :=
| Ret (a : A)
| Raise (e : exn).
Arguments Ret {A} a.
Arguments Raise {A} e.

(** ** hashlib.sha256 (FIPS 180-4) on 32-bit words held in [Z] *)
Module SHA256.

Definition mask32 : Z := 0xFFFFFFFF.
Definition trunc32 (x : Z) : Z := Z.land x mask32.
Definition add32 (x y : Z) : Z := trunc32 (x + y).
Definition not32 (x : Z) : Z := Z.lxor x mask32.
Definition shr (n x : Z) : Z := Z.shiftr x n.
Definition rotr (n x : Z) : Z :=
  Z.lor (Z.shiftr x n) (trunc32 (Z.shiftl x (32 - n))).

Definition Ch (x y z : Z) : Z := Z.lxor (Z.land x y) (Z.land (not32 x) z).
Definition Maj (x y z : Z) : Z :=
  Z.lxor (Z.lxor (Z.land x y) (Z.land x z)) (Z.land y z).
Definition bsig0 (x : Z) : Z := Z.lxor (Z.lxor (rotr 2 x) (rotr 13 x)) (rotr 22 x).
Definition bsig1 (x : Z) : Z := Z.lxor (Z.lxor (rotr 6 x) (rotr 11 x)) (rotr 25 x).
Definition ssig0 (x : Z) : Z := Z.lxor (Z.lxor (rotr 7 x) (rotr 18 x)) (shr 3 x).
Definition ssig1 (x : Z) : Z := Z.lxor (Z.lxor (rotr 17 x) (rotr 19 x)) (shr 10 x).

(** Round constants, four per row. *)
Definition K : list Z :=
  [ 0x428A2F98; 0x71374491; 0xB5C0FBCF; 0xE9B5DBA5;
    0x3956C25B; 0x59F111F1; 0x923F82A4; 0xAB1C5ED5;
    0xD807AA98; 0x12835B01; 0x243185BE; 0x550C7DC3;
    0x72BE5D74; 0x80DEB1FE; 0x9BDC06A7; 0xC19BF174;
    0xE49B69C1; 0xEFBE4786; 0x0FC19DC6; 0x240CA1CC;
    0x2DE92C6F; 0x4A7484AA; 0x5CB0A9DC; 0x76F988DA;
    0x983E5152; 0xA831C66D; 0xB00327C8; 0xBF597FC7;
    0xC6E00BF3; 0xD5A79147; 0x06CA6351; 0x14292967;
    0x27B70A85; 0x2E1B2138; 0x4D2C6DFC; 0x53380D13;
    0x650A7354; 0x766A0ABB; 0x81C2C92E; 0x92722C85;
    0xA2BFE8A1; 0xA81A664B; 0xC24B8B70; 0xC76C51A3;
    0xD192E819; 0xD6990624; 0xF40E3585; 0x106AA070;
    0x19A4C116; 0x1E376C08; 0x2748774C; 0x34B0BCB5;
    0x391C0CB3; 0x4ED8AA4A; 0x5B9CCA4F; 0x682E6FF3;
    0x748F82EE; 0x78A5636F; 0x84C87814; 0x8CC70208;
    0x90BEFFFA; 0xA4506CEB; 0xBEF9A3F7; 0xC67178F2 ].

(** The eight working words. *)
Record regs : Type := Regs {
  ra : Z; rb : Z; rc : Z; rd : Z; re : Z; rf : Z; rg : Z; rh : Z }.

Definition init_regs : regs :=
  Regs 0x6A09E667 0xBB67AE85 0x3C6EF372 0xA54FF53A
       0x510E527F 0x9B05688C 0x1F83D9AB 0x5BE0CD19.

(** Padding: a 1 bit, zero bits up to 56 modulo 64 bytes, then the bit length
    as a 64-bit big-endian integer. *)
Definition be_bytes (n : nat) (x : Z) : list Z :=
  map (fun i => Z.land (Z.shiftr x (8 * Z.of_nat i)) 0xFF) (rev (seq 0 n)).

Definition pad (msg : list Z) : list Z :=
  let len := Z.of_nat (length msg) in
  let zeros := Z.to_nat ((55 - len) mod 64) in
  msg ++ [0x80] ++ repeat 0 zeros ++ be_bytes 8 (8 * len).

Definition word_of_bytes (bs : list Z) : Z :=
  fold_left (fun acc b => Z.lor (Z.shiftl acc 8) b) bs 0.

(** [chunks k n l] cuts [l] into [n] consecutive pieces of [k] elements. *)
Fixpoint chunks {A} (k n : nat) (l : list A) : list (list A) :=
  match n with
  | O => []
  | S n' => firstn k l :: chunks k n' (skipn k l)
  end.

Definition block_words (block : list Z) : list Z :=
  map word_of_bytes (chunks 4 16 block).

(** Message schedule: the 16 block words extended to 64. *)
Fixpoint extend (n : nat) (w : list Z) : list Z :=
  match n with
  | O => w
  | S n' =>
    let t := length w in
    let at_ k := nth (t - k) w 0 in
    extend n' (w ++ [add32 (add32 (add32 (ssig1 (at_ 2%nat)) (at_ 7%nat))
                                  (ssig0 (at_ 15%nat))) (at_ 16%nat)])
  end.

Definition schedule (block : list Z) : list Z := extend 48 (block_words block).

Definition round (s : regs) (kw : Z * Z) : regs :=
  let t1 := add32 (add32 (add32 (add32 (rh s) (bsig1 (re s)))
                                (Ch (re s) (rf s) (rg s))) (fst kw)) (snd kw) in
  let t2 := add32 (bsig0 (ra s)) (Maj (ra s) (rb s) (rc s)) in
  Regs (add32 t1 t2) (ra s) (rb s) (rc s) (add32 (rd s) t1) (re s) (rf s) (rg s).

Definition compress (h : regs) (block : list Z) : regs :=
  let s := fold_left round (combine K (schedule block)) h in
  Regs (add32 (ra h) (ra s)) (add32 (rb h) (rb s))
       (add32 (rc h) (rc s)) (add32 (rd h) (rd s))
       (add32 (re h) (re s)) (add32 (rf h) (rf s))
       (add32 (rg h) (rg s)) (add32 (rh h) (rh s)).

Definition digest_regs (msg : list Z) : regs :=
  let p := pad msg in
  fold_left compress (chunks 64 (length p / 64) p) init_regs.

Definition regs_words (s : regs) : list Z :=
  [ra s; rb s; rc s; rd s; re s; rf s; rg s; rh s].

(** The digest as 32 bytes, most significant byte of each word first. *)
Definition digest (msg : list Z) : list Z :=
  concat (map (be_bytes 4) (regs_words (digest_regs msg))).

End SHA256.

(** ** str and bytes *)

(** A Python [str] is held as the byte sequence of its UTF-8 form, so
    [str.encode()] reads the bytes off. *)
Definition encode (s : string) : list Z :=
  map (fun b => Z.of_N (Byte.to_N b)) (list_byte_of_string s).

Definition hex_digit (d : Z) : ascii :=
  if d <? 10 then ascii_of_N (Z.to_N (48 + d))
  else ascii_of_N (Z.to_N (87 + d)).

(** [bytes.hex()] / [hexdigest()]: two lowercase digits per byte. *)
Fixpoint hex (bs : list Z) : string :=
  match bs with
  | [] => EmptyString
  | b :: bs' =>
    String (hex_digit (Z.land (Z.shiftr b 4) 0xF))
      (String (hex_digit (Z.land b 0xF)) (hex bs'))
  end.

Definition hexdigest (msg : list Z) : string := hex (SHA256.digest msg).

Definition upper_ascii (a : ascii) : ascii :=
  let n := N_of_ascii a in
  if ((97 <=? n) && (n <=? 122))%N then ascii_of_N (n - 32) else a.

(** [str.upper()] on the ASCII range. *)
Fixpoint upper (s : string) : string :=
  match s with
  | EmptyString => EmptyString
  | String a s' => String (upper_ascii a) (upper s')
  end.

(** ** ibc_denom *)

Definition ibc_denom (channel denom : string) : string :=
  let h := upper (hexdigest (encode ("transfer/" +:+ channel +:+ "/" +:+ denom))) in
  "ibc/" +:+ h.

(** The same derivation spelled the way the specification words it: the
    prefix followed by the digest rendered directly with uppercase digits. *)
Definition upper_hex_digit (d : Z) : ascii :=
  if d <? 10 then ascii_of_N (Z.to_N (48 + d))
  else ascii_of_N (Z.to_N (55 + d)).

Fixpoint upper_hex (bs : list Z) : string :=
  match bs with
  | [] => EmptyString
  | b :: bs' =>
    String (upper_hex_digit (Z.land (Z.shiftr b 4) 0xF))
      (String (upper_hex_digit (Z.land b 0xF)) (upper_hex bs'))
  end.

Definition derive_spec (channel denom : string) : string :=
  "ibc/" +:+ upper_hex (SHA256.digest (encode ("transfer/" +:+ channel +:+ "/" +:+ denom))).

Definition is_upper_hex_char (a : ascii) : bool :=
  let n := N_of_ascii a in
  ((48 <=? n) && (n <=? 57) || (65 <=? n) && (n <=? 70))%N.

Fixpoint string_forallb (p : ascii -> bool) (s : string) : bool :=
  match s with
  | EmptyString => true
  | String a s' => p a && string_forallb p s'
  end.

(** ** Events and attributes *)

(** One [{"key": ..., "value": ...}] entry of an event. *)
Record attribute : Type := Attribute {
  attr_key : string;
  attr_value : string }.

(** One [{"type": ..., "attributes": [...]}] entry of a transaction result. *)
Record event : Type := Event {
  ev_type : string;
  ev_attributes : list attribute }.

#[global] Instance attribute_eq_dec : EqDecision attribute.
Proof. solve_decision. Defined.
#[global] Instance event_eq_dec : EqDecision event.
Proof. solve_decision. Defined.

(** ** find_duplicate *)

(** The [for] loop of [find_duplicate]: [res] is the set of pairs seen so
    far and [value0] the local of that name, [None] while it is unassigned. *)
Fixpoint find_duplicate_loop (key : string) (res : gset string)
    (value0 : option string) (attributes : list attribute)
    : result (option string) :=
  match attributes with
  | [] => Ret None
  | attribute :: rest =>
    if decide (attr_key attribute = key) then
      find_duplicate_loop key res (Some (attr_value attribute)) rest
    else if decide (attr_key attribute = "amount") then
      let amount := attr_value attribute in
      match value0 with
      | None => Raise (UnboundLocalError "value0")
      | Some v0 =>
        let value_pair := v0 +:+ ":" +:+ amount in
        if decide (value_pair ∈ res) then Ret (Some value_pair)
        else find_duplicate_loop key ({[ value_pair ]} ∪ res) value0 rest
      end
    else find_duplicate_loop key res value0 rest
  end.

Definition find_duplicate (attributes : list attribute) : result (option string) :=
  match attributes with
  | [] => Raise IndexError
  | first :: _ => find_duplicate_loop (attr_key first) ∅ None attributes
  end.

(** The record groups of an attribute sequence: every ["amount"] attribute
    is paired with the latest value seen under the first attribute's key. *)
Fixpoint group_pairs (key cur : string) (attributes : list attribute)
    : list (string * string) :=
  match attributes with
  | [] => []
  | a :: rest =>
    if decide (attr_key a = key) then group_pairs key (attr_value a) rest
    else if decide (attr_key a = "amount") then
      (cur, attr_value a) :: group_pairs key cur rest
    else group_pairs key cur rest
  end.

Definition pairs_of (attributes : list attribute) : list (string * string) :=
  match attributes with
  | [] => []
  | first :: _ => group_pairs (attr_key first) (attr_value first) attributes
  end.

(** The string under which a pair is reported. *)
Definition render (p : string * string) : string := p.1 +:+ ":" +:+ p.2.

(** The first element of a list that already occurred before it. *)
Fixpoint first_repeat_from (seen : list string) (l : list string) : option string :=
  match l with
  | [] => None
  | x :: l' =>
    if decide (x ∈ seen) then Some x else first_repeat_from (x :: seen) l'
  end.

Definition first_repeat (l : list string) : option string := first_repeat_from [] l.

(** ** Channel readiness *)

(** One entry of the ["channels"] list of a channel query. *)
Record channel : Type := Channel {
  channel_id : string;
  state : string }.

(** [next(generator)] on the generator's items; [None] stands for the
    [StopIteration] of an exhausted generator. *)
Definition next {A} (items : list A) : option A := head items.

Definition STATE_OPEN : string := "STATE_OPEN".

(** ** The ledger clients as an interface *)

(** [chains[0]] is the Cronos client and [chains[1]] the Chainmain one. *)
Inductive chain : Type := Cronos | Chainmain.

(** [{"denom": ..., "amount": ...}], one entry of a balance list. *)
Record coin : Type := Coin {
  coin_denom : string;
  coin_amount : string }.

(** The response of a submitted or queried transaction. *)
Record tx_response : Type := TxResponse {
  rsp_code : Z;
  rsp_raw_log : string;
  rsp_events : list event;
  rsp_txhash : string }.

(** [{"path": ..., "base_denom": ...}]. *)
Record denom_trace : Type := DenomTrace {
  dt_path : string;
  dt_base_denom : string }.

(** The ["result"] object of a block_results reply, down to the events. *)
Record tx_result : Type := TxResult { txr_events : list event }.
Record block_result : Type := BlockResult { txs_results : list tx_result }.

#[global] Instance chain_eq_dec : EqDecision chain.
Proof. solve_decision. Defined.
#[global] Instance coin_eq_dec : EqDecision coin.
Proof. solve_decision. Defined.
#[global] Instance denom_trace_eq_dec : EqDecision denom_trace.
Proof. solve_decision. Defined.

(** Every call the modelled functions make on a collaborator.  An omitted
    keyword argument is [None]. *)
Inductive query : Type :=
| cli_address (c : chain) (name : string)
| cli_balance (c : chain) (addr denom : string)
| cli_balances (c : chain) (addr : string)
| cli_ibc_transfer (c : chain) (from_ to amount channel : string)
    (target_version : Z) (fees : string) (event_query_tx_for : option bool)
| cli_event_query_tx_for (c : chain) (txhash : string)
| cli_pay_packet_fee (c : chain) (port_id channel_id : string) (packet_seq : Z)
    (recv_fee ack_fee timeout_fee from_ : string)
| cli_ibc_denom_trace (c : chain) (path node : string)
| node_rpc (c : chain) (i : Z)
| cli_ibc_query_channels (c : chain) (connid : string)
| cli_query_all_txs (c : chain) (adr : string)
| caller_getStatus (tcontract channel_id : string) (seq : Z)
| requests_get (url : string).

Definition answer (q : query) : Type :=
  match q with
  | cli_address _ _ => string
  | cli_balance _ _ _ => Z
  | cli_balances _ _ => list coin
  | cli_ibc_transfer _ _ _ _ _ _ _ _ => tx_response
  | cli_event_query_tx_for _ _ => tx_response
  | cli_pay_packet_fee _ _ _ _ _ _ _ _ => tx_response
  | cli_ibc_denom_trace _ _ _ => denom_trace
  | node_rpc _ _ => string
  | cli_ibc_query_channels _ _ => list channel
  | cli_query_all_txs _ _ => list string
  | caller_getStatus _ _ _ => Z
  | requests_get _ => block_result
  end.

(** A harness function: it finishes with an outcome, or asks a collaborator
    and goes on with the reply (a value, or the exception the call raised). *)
Inductive prog (A : Type) : Type :=
| Done (r : result A)
| Ask (q : query) (k : result (answer q) -> prog A).
Arguments Done {A} r.
Arguments Ask {A} q k.

Fixpoint prog_bind {A B} (f : A -> prog B) (p : prog A) : prog B :=
  match p with
  | Done (Ret a) => f a
  | Done (Raise e) => Done (Raise e)
  | Ask q k => Ask q (fun r => prog_bind f (k r))
  end.

#[global] Instance prog_mret : MRet prog := fun A a => Done (Ret a).
#[global] Instance prog_mbind : MBind prog := fun A B f p => prog_bind f p.

Definition call (q : query) : prog (answer q) := Ask q Done.
Definition raise {A} (e : exn) : prog A := Done (Raise e).
Definition assert_ (cond : bool) : prog unit :=
  if cond then mret tt else raise AssertionError.

(** [try: body except ...: handler]; [handler e = None] when no clause
    matches [e]. *)
Fixpoint try_except {A} (body : prog A) (handler : exn -> option (prog A)) : prog A :=
  match body with
  | Done (Ret a) => Done (Ret a)
  | Done (Raise e) =>
    match handler e with
    | Some h => h
    | None => Done (Raise e)
    end
  | Ask q k => Ask q (fun r => try_except (k r) handler)
  end.

(** [for x in l: body]. *)
Fixpoint for_ {A} (l : list A) (body : A -> prog unit) : prog unit :=
  match l with
  | [] => mret tt
  | x :: l' => body x ;; for_ l' body
  end.

(** A [for] loop that rebinds one enclosing variable [s]. *)
Fixpoint for_fold {A S} (l : list A) (s : S) (body : A -> S -> prog S) : prog S :=
  match l with
  | [] => mret s
  | x :: l' => s' ← body x s; for_fold l' s' body
  end.

(** A list comprehension whose element expression makes calls. *)
Fixpoint comprehension {A B} (f : A -> prog B) (l : list A) : prog (list B) :=
  match l with
  | [] => mret []
  | x :: l' => y ← f x; ys ← comprehension f l'; mret (y :: ys)
  end.

Definition enumerate {A} (l : list A) : list (nat * A) :=
  combine (seq 0 (length l)) l.

Definition range (a b : Z) : list Z :=
  map (fun i => a + Z.of_nat i) (seq 0 (Z.to_nat (b - a))).

(** [l[i]]. *)
Definition index {A} (l : list A) (i : nat) : prog A :=
  match l !! i with
  | Some x => mret x
  | None => raise IndexError
  end.

(** [len(l)]. *)
Definition len {A} (l : list A) : Z := Z.of_nat (length l).

(** [f"{n}"] for an [int]. *)
Definition str_int (n : Z) : string := NilZero.string_of_int (Z.to_int n).

(** Truth value testing, as [if result:] does it. *)
Class Truthy (A : Type) := truthy : A -> bool.
#[global] Instance truthy_bool : Truthy bool := fun b => b.
#[global] Instance truthy_int : Truthy Z := fun n => negb (n =? 0).

(** ** Running against a ledger *)

(** One answered call. *)
Inductive obs : Type := Obs (q : query) (r : result (answer q)).

Section Run.
Context {W : Type} (respond : forall q : query, W -> result (answer q) * W).

(** The outcome, the final state of the collaborators and the calls made,
    in order. *)
Fixpoint run {A} (p : prog A) (w : W) : result A * W * list obs :=
  match p with
  | Done r => (r, w, [])
  | Ask q k =>
    let '(r, w1) := respond q w in
    let '(out, w2, tr) := run (k r) w1 in
    (out, w2, Obs q r :: tr)
  end.
End Run.

(** ** The condition poller *)

Inductive error_policy : Type := propagate_errors | swallow_and_retry.

Record poller : Type := Poller {
  poll_interval : Z;
  default_timeout : Z;
  on_error : error_policy }.

(** One evaluation of the predicate: under [swallow_and_retry] a transient
    query failure counts as "not yet"; every other exception propagates. *)
Definition attempt {A} `{Truthy A} (cfg : poller) (predicate : prog A) : prog bool :=
  try_except (r ← predicate; mret (truthy r))
    (fun e =>
       match on_error cfg, e with
       | swallow_and_retry, TransientQueryError => Some (mret false)
       | _, _ => None
       end).

Fixpoint poll {A} `{Truthy A} (cfg : poller) (attempts : nat) (predicate : prog A)
    : prog unit :=
  match attempts with
  | O => raise TimeoutError
  | S n =>
    ready ← attempt cfg predicate;
    if ready : bool then mret tt else poll cfg n predicate
  end.

(** Modelled from the spec: [wait_for_fn] of [integration_tests/utils.py],
    which is not among the sources.  The predicate is re-invoked once per
    poll interval until it returns a truthy value; when the timeout (the
    default one if none is passed) is used up without that, [TimeoutError]
    is raised.  Wall-clock time is counted in poll intervals. *)
Definition wait_for_fn {A} `{Truthy A} (cfg : poller) (name : string)
    (fn : prog A) (timeout : option Z) : prog unit :=
  let t := default (default_timeout cfg) timeout in
  poll cfg (Z.to_nat (t / poll_interval cfg)) fn.

(** ** Helpers the harness imports *)

(** What [ibc_utils.py] takes from [utils.py], [pystarport] and the standard
    library without defining it: each is a parameter of the functions below. *)
Record externals : Type := Externals {
  eth_to_bech32 : string -> string;
  find_log_event_attrs :
    list event -> string -> (gmap string string -> bool) -> result (gmap string string);
  py_int : string -> result Z;
  json_dumps : event -> string;
  rpc_port : Z -> Z }.

Definition lift {A} (r : result A) : prog A := Done r.

(** [d[k]] on a dict. *)
Definition getitem (d : gmap string string) (k : string) : prog string :=
  match d !! k with
  | Some v => mret v
  | None => raise KeyError
  end.

(** ** wait_for_check_channel_ready *)

Definition check_channel_ready (cli : chain) (connid channel_id0 target : string)
    : prog bool :=
  channels ← call (cli_ibc_query_channels cli connid);
  match next (map state (filter (fun ch => channel_id ch = channel_id0) channels)) with
  | None => mret false
  | Some st => mret (bool_decide (st = target))
  end.

Definition wait_for_check_channel_ready (cfg : poller) (cli : chain)
    (connid channel_id0 : string) (target : option string) : prog unit :=
  let target := default STATE_OPEN target in
  wait_for_fn cfg "channel ready"
    (check_channel_ready cli connid channel_id0 target) (Some 30).

(** ** wait_for_check_tx and wait_for_status_change *)

Definition check_tx (cli : chain) (adr : string) (num_txs : Z) : prog bool :=
  txs ← call (cli_query_all_txs cli adr);
  let current := len txs in
  mret (current >? num_txs).

(** The local [raised] is [None] until the [except] clause assigns it. *)
Definition wait_for_check_tx (cfg : poller) (cli : chain) (adr : string)
    (num_txs : Z) (timeout : option Z) : prog unit :=
  match timeout with
  | None => wait_for_fn cfg "transfer tx" (check_tx cli adr num_txs) None
  | Some t =>
    raised ← try_except
      (wait_for_fn cfg "transfer tx" (check_tx cli adr num_txs) (Some t) ;;
       mret (None : option bool))
      (fun e =>
         match e with
         | TimeoutError => Some (mret (Some true))
         | _ => None
         end);
    match raised with
    | None => raise (UnboundLocalError "raised")
    | Some b => assert_ b
    end
  end.

Definition check_status (tcontract channel_id0 : string) (seq : Z) : prog Z :=
  status ← call (caller_getStatus tcontract channel_id0 seq);
  mret status.

Definition wait_for_status_change (cfg : poller) (tcontract channel_id0 : string)
    (seq : Z) (timeout : option Z) : prog unit :=
  match timeout with
  | None => wait_for_fn cfg "current status" (check_status tcontract channel_id0 seq) None
  | Some t =>
    raised ← try_except
      (wait_for_fn cfg "current status" (check_status tcontract channel_id0 seq) (Some t) ;;
       mret (None : option bool))
      (fun e =>
         match e with
         | TimeoutError => Some (mret (Some true))
         | _ => None
         end);
    match raised with
    | None => raise (UnboundLocalError "raised")
    | Some b => assert_ b
    end
  end.

(** ** assert_duplicate *)

(** The [for] loop of [assert_duplicate] over the events, [values] being the
    set of serializations seen so far. *)
Fixpoint assert_duplicate_loop (dumps : event -> string) (values : gset string)
    (events : list event) : result unit :=
  match events with
  | [] => Ret tt
  | event :: rest =>
    if decide (ev_type event = "message") then
      assert_duplicate_loop dumps values rest
    else
      let str := dumps event in
      if decide (str ∈ values) then Raise AssertionError
      else assert_duplicate_loop dumps ({[ str ]} ∪ values) rest
  end.

Definition assert_duplicate (ext : externals) (base_port height : Z) : prog unit :=
  let port := rpc_port ext base_port in
  let url := "http://127.0.0.1:" +:+ str_int port
             +:+ "/block_results?height=" +:+ str_int height in
  res ← call (requests_get url);
  tx0 ← index (txs_results res) 0;
  let events := txr_events tx0 in
  lift (assert_duplicate_loop (json_dumps ext) ∅ events).

(** ** ibc_multi_transfer *)

Definition assert_trace_balance (expected : list coin) (addr : string) : prog bool :=
  balance ← call (cli_balances Chainmain addr);
  if len balance >? 1 then
    assert_ (bool_decide (balance = expected)) ;;
    mret true
  else mret false.

Definition assert_balance (denom0 : string) (old_balance0 amount amt : Z)
    (addr : string) : prog bool :=
  balance ← call (cli_balance Cronos addr denom0);
  if balance >? old_balance0 - amount then
    assert_ (bool_decide (balance = old_balance0 - amt)) ;;
    mret true
  else mret false.

Definition ibc_multi_transfer (cfg : poller) : prog unit :=
  let users := map (fun i => "user" +:+ str_int i) (range 1 2) in
  addrs0 ← comprehension (fun user => call (cli_address Cronos user)) users;
  addrs1 ← comprehension (fun user => call (cli_address Chainmain user)) users;
  let denom0 := "basetcro" in
  let denom1 := "basecro" in
  let channel0 := "channel-0" in
  let channel1 := "channel-0" in
  let old_balance0 := 30000000000000000000000 in
  let old_balance1 := 1000000000000000000000 in
  let path := "transfer/" +:+ channel1 +:+ "/" +:+ denom0 in
  let denom_hash := upper (hexdigest (encode path)) in
  let amount := 1000 in
  let expected :=
    [ Coin denom1 (str_int old_balance1);
      Coin ("ibc/" +:+ denom_hash) (str_int amount) ] in
  for_ (enumerate users) (fun '(i, _) =>
    from_ ← index addrs0 i;
    to ← index addrs1 i;
    rsp ← call (cli_ibc_transfer Cronos from_ to (str_int amount +:+ denom0)
                  channel0 1 ("1000" +:+ denom1) (Some true));
    assert_ (rsp_code rsp =? 0) ;;
    addr ← index addrs1 i;
    balance ← call (cli_balance Chainmain addr denom1);
    assert_ (balance =? old_balance1) ;;
    addr ← index addrs0 i;
    balance ← call (cli_balance Cronos addr denom0);
    assert_ (balance =? old_balance0 - amount)) ;;
  node ← call (node_rpc Chainmain 0);
  trace ← call (cli_ibc_denom_trace Cronos path node);
  assert_ (bool_decide (trace = DenomTrace ("transfer/" +:+ channel1) denom0)) ;;
  for_ (enumerate users) (fun '(i, _) =>
    wait_for_fn cfg "assert balance"
      (addr ← index addrs1 i; assert_trace_balance expected addr) None) ;;
  (* chainmain-1 -> cronos_777-1 *)
  let amt := amount `div` 2 in
  for_fold (range 0 2) old_balance0 (fun _ old_balance0 =>
    for_ (enumerate users) (fun '(i, _) =>
      from_ ← index addrs1 i;
      to ← index addrs0 i;
      rsp ← call (cli_ibc_transfer Chainmain from_ to
                    (str_int amt +:+ "ibc/" +:+ denom_hash)
                    channel1 1 ("100000000" +:+ denom1) None);
      assert_ (rsp_code rsp =? 0)) ;;
    for_ (enumerate users) (fun '(i, _) =>
      wait_for_fn cfg "assert balance"
        (addr ← index addrs0 i; assert_balance denom0 old_balance0 amount amt addr)
        None) ;;
    mret (old_balance0 + amt)) ;;
  mret tt.

(** ** ibc_incentivized_transfer *)

Definition RELAYER_CALLER : string := "0x6F1805D56bF05b7be10857F376A5b1c160C8f72C".

Definition check_fee (relayer relayer_caller fee_denom : string)
    (old_amt_fee old_amt_fee_caller : Z) : prog bool :=
  amount ← call (cli_balance Cronos relayer fee_denom);
  if amount >? old_amt_fee then
    amount_caller ← call (cli_balance Cronos relayer_caller fee_denom);
    (if amount_caller >? 0 then
       assert_ (amount_caller =? old_amt_fee_caller + 10) ;;
       assert_ (amount =? old_amt_fee + 10)
     else
       assert_ (amount =? old_amt_fee + 20)) ;;
    mret true
  else mret false.

Definition check_balance_change (sender base_denom : string)
    (old_amt_sender_base amount : Z) : prog bool :=
  balance ← call (cli_balance Cronos sender base_denom);
  mret (negb (balance =? old_amt_sender_base - amount)).

Definition ibc_incentivized_transfer (ext : externals) (cfg : poller) : prog (Z * Z) :=
  receiver ← call (cli_address Chainmain "signer2");
  sender ← call (cli_address Cronos "signer2");
  relayer ← call (cli_address Cronos "signer1");
  let relayer_caller := eth_to_bech32 ext RELAYER_CALLER in
  let amount := 1000 in
  let fee_denom := "ibcfee" in
  let base_denom := "basetcro" in
  old_amt_fee ← call (cli_balance Cronos relayer fee_denom);
  old_amt_fee_caller ← call (cli_balance Cronos relayer_caller fee_denom);
  old_amt_sender_fee ← call (cli_balance Cronos sender fee_denom);
  old_amt_sender_base ← call (cli_balance Cronos sender base_denom);
  old_amt_receiver_base ← call (cli_balance Chainmain receiver "basecro");
  assert_ (old_amt_sender_base =? 30000000000100000000000) ;;
  assert_ (old_amt_receiver_base =? 1000000000000000000000) ;;
  let src_channel := "channel-0" in
  let dst_channel := "channel-0" in
  rsp ← call (cli_ibc_transfer Cronos sender receiver (str_int amount +:+ base_denom)
                src_channel 1 "0basecro" None);
  assert_ (rsp_code rsp =? 0) ;;
  rsp ← call (cli_event_query_tx_for Cronos (rsp_txhash rsp));
  let cb := fun attrs : gmap string string =>
    bool_decide (is_Some (attrs !! "packet_sequence")) in
  evt ← lift (find_log_event_attrs ext (rsp_events rsp) "send_packet" cb);
  seq_str ← getitem evt "packet_sequence";
  packet_seq ← lift (py_int ext seq_str);
  let fee := "10" +:+ fee_denom in
  rsp ← call (cli_pay_packet_fee Cronos "transfer" src_channel packet_seq
                fee fee fee sender);
  assert_ (rsp_code rsp =? 0) ;;
  (* fee is locked *)
  current ← call (cli_balance Cronos sender fee_denom);
  assert_ (current =? old_amt_sender_fee - 20) ;;
  (* wait for relayer receive the fee *)
  wait_for_fn cfg "wait for relayer to receive the fee"
    (check_fee relayer relayer_caller fee_denom old_amt_fee old_amt_fee_caller) None ;;
  (* timeout fee is refunded *)
  actual ← call (cli_balances Cronos sender);
  assert_ (bool_decide (actual =
    [ Coin base_denom (str_int (old_amt_sender_base - amount));
      Coin fee_denom (str_int (old_amt_sender_fee - 20)) ])) ;;
  let path := "transfer/" +:+ dst_channel +:+ "/" +:+ base_denom in
  let denom_hash := upper (hexdigest (encode path)) in
  node ← call (node_rpc Chainmain 0);
  trace ← call (cli_ibc_denom_trace Cronos path node);
  assert_ (bool_decide (trace = DenomTrace ("transfer/" +:+ dst_channel) base_denom)) ;;
  current ← call (cli_balances Chainmain receiver);
  assert_ (bool_decide (current =
    [ Coin "basecro" (str_int old_amt_receiver_base);
      Coin ("ibc/" +:+ denom_hash) (str_int amount) ])) ;;
  (* transfer back *)
  let fee_amount := 100000000 in
  rsp ← call (cli_ibc_transfer Chainmain receiver sender
                (str_int amount +:+ "ibc/" +:+ denom_hash) dst_channel 1
                (str_int fee_amount +:+ "basecro") None);
  assert_ (rsp_code rsp =? 0) ;;
  wait_for_fn cfg "balance change"
    (check_balance_change sender base_denom old_amt_sender_base amount) None ;;
  actual ← call (cli_balance Cronos sender base_denom);
  assert_ (actual =? old_amt_sender_base) ;;
  current ← call (cli_balance Chainmain receiver "basecro");
  assert_ (current =? old_amt_receiver_base - fee_amount) ;;
  mret (amount, packet_seq).

(** ** Scripted collaborators *)

(** A stand-in for the ledgers: the [n]-th call is answered from a script. *)
Definition script : Type := nat -> forall q : query, result (answer q).

Definition scripted (s : script) (q : query) (n : nat) : result (answer q) * nat :=
  (s n q, S n).

Definition one_second_polls : poller := Poller 1 240 propagate_errors.

(** A connection with one channel still in its handshake and one open. *)
Definition two_channels : script := fun _ q =>
  match q return result (answer q) with
  | cli_ibc_query_channels _ _ =>
    Ret [Channel "channel-0" "STATE_TRYOPEN"; Channel "channel-1" "STATE_OPEN"]
  | _ => Raise TransientQueryError
  end.

(** An account whose transaction list stays at [txs]. *)
Definition steady_txs (txs : list string) : script := fun _ q =>
  match q return result (answer q) with
  | cli_query_all_txs _ _ => Ret txs
  | _ => Raise TransientQueryError
  end.

(** A contract whose packet status stays at [status]. *)
Definition steady_status (status : Z) : script := fun _ q =>
  match q return result (answer q) with
  | caller_getStatus _ _ _ => Ret status
  | _ => Raise TransientQueryError
  end.

(** A serializer for examples: the type, then every attribute. *)
Definition plain_dumps (e : event) : string :=
  ev_type e +:+ "{" +:+
  String.concat ", " (map (fun a => attr_key a +:+ ": " +:+ attr_value a) (ev_attributes e))
  +:+ "}".

Definition plain_externals : externals :=
  Externals (fun addr => addr)
    (fun _ _ _ => Ret {[ "packet_sequence" := "7" ]})
    (fun _ => Ret 7)
    plain_dumps
    (fun base_port => base_port + 7).

(** A node whose block carries the given events in its first transaction. *)
Definition one_block (events : list event) : script := fun _ q =>
  match q return result (answer q) with
  | requests_get _ => Ret (BlockResult [TxResult events])
  | _ => Raise TransientQueryError
  end.

(** ** Polls that leave a wait pending *)

(** [idle_polls respond cfg fn w ts w'] : from [w], zero or more evaluations
    of [fn] each came out "not yet", making the calls [ts] and leaving the
    collaborators in [w']. *)
Inductive idle_polls {W : Type} (respond : forall q : query, W -> result (answer q) * W)
    {A : Type} `{Truthy A} (cfg : poller) (fn : prog A) : W -> list obs -> W -> Prop :=
| idle_done (w : W) : idle_polls respond cfg fn w [] w
| idle_not_ready (w w1 w2 : W) (a : A) (t ts : list obs) :
    run respond fn w = (Ret a, w1, t) ->
    truthy a = false ->
    idle_polls respond cfg fn w1 ts w2 ->
    idle_polls respond cfg fn w (t ++ ts) w2
| idle_swallowed (w w1 w2 : W) (t ts : list obs) :
    on_error cfg = swallow_and_retry ->
    run respond fn w = (Raise TransientQueryError, w1, t) ->
    idle_polls respond cfg fn w1 ts w2 ->
    idle_polls respond cfg fn w (t ++ ts) w2.

(** ** The shape of a passing scenario *)

Definition pending_poll (q : query) (P : answer q -> Prop) (o : obs) : Prop :=
  (exists v, o = Obs q (Ret v) /\ P v) \/ o = Obs q (Raise TransientQueryError).

Definition outbound_calls (sender receiver : string) (rsp : tx_response)
    (node : string) (polls : list obs) : list obs :=
  [ Obs (cli_address Cronos "user1") (Ret sender);
    Obs (cli_address Chainmain "user1") (Ret receiver);
    Obs (cli_ibc_transfer Cronos sender receiver "1000basetcro" "channel-0" 1
           "1000basecro" (Some true)) (Ret rsp);
    Obs (cli_balance Chainmain receiver "basecro") (Ret 1000000000000000000000);
    Obs (cli_balance Cronos sender "basetcro") (Ret (30000000000000000000000 - 1000));
    Obs (node_rpc Chainmain 0) (Ret node);
    Obs (cli_ibc_denom_trace Cronos "transfer/channel-0/basetcro" node)
      (Ret (DenomTrace "transfer/channel-0" "basetcro")) ]
  ++ polls
  ++ [ Obs (cli_balances Chainmain receiver)
         (Ret [ Coin "basecro" "1000000000000000000000";
                Coin (ibc_denom "channel-0" "basetcro") "1000" ]) ].

Definition return_leg (sender receiver : string) (rsp : tx_response)
    (polls : list obs) (settled : Z) : list obs :=
  [ Obs (cli_ibc_transfer Chainmain receiver sender
           ("500" +:+ ibc_denom "channel-0" "basetcro") "channel-0" 1
           "100000000basecro" None) (Ret rsp) ]
  ++ polls
  ++ [ Obs (cli_balance Cronos sender "basetcro") (Ret settled) ].

(** A ledger pair on which the multi transfer scenario passes: the receiver
    is credited on the second poll and each return leg on its second poll. *)
Definition settling_ledgers : script := fun n q =>
  match q return result (answer q) with
  | cli_address Cronos _ => Ret "crc1sender"
  | cli_address Chainmain _ => Ret "cro1receiver"
  | cli_ibc_transfer _ _ _ _ _ _ _ _ => Ret (TxResponse 0 "" [] "4A1F")
  | cli_balance Chainmain _ _ => Ret 1000000000000000000000
  | cli_balance Cronos _ _ =>
    Ret (if (n <? 11)%nat then 30000000000000000000000 - 1000
         else if (n <? 14)%nat then 30000000000000000000000 - 500
         else 30000000000000000000000)
  | cli_balances _ _ =>
    Ret (if (n <? 8)%nat then [Coin "basecro" "1000000000000000000000"]
         else [ Coin "basecro" "1000000000000000000000";
                Coin (ibc_denom "channel-0" "basetcro") "1000" ])
  | node_rpc _ _ => Ret "tcp://127.0.0.1:26657"
  | cli_ibc_denom_trace _ _ _ => Ret (DenomTrace "transfer/channel-0" "basetcro")
  | _ => Raise TransientQueryError
  end.

(** The calls of a passing [ibc_incentivized_transfer] up to the check of the
    sender's balances after the relayer was paid. *)
Definition fee_calls (ext : externals) (receiver sender relayer : string)
    (old_amt_fee old_amt_fee_caller old_amt_sender_fee : Z)
    (rsp rsp_tx : tx_response) (packet_seq : Z) (rsp_fee : tx_response)
    (polls : list obs) (amount amount_caller : Z) : list obs :=
  [ Obs (cli_address Chainmain "signer2") (Ret receiver);
    Obs (cli_address Cronos "signer2") (Ret sender);
    Obs (cli_address Cronos "signer1") (Ret relayer);
    Obs (cli_balance Cronos relayer "ibcfee") (Ret old_amt_fee);
    Obs (cli_balance Cronos (eth_to_bech32 ext RELAYER_CALLER) "ibcfee")
      (Ret old_amt_fee_caller);
    Obs (cli_balance Cronos sender "ibcfee") (Ret old_amt_sender_fee);
    Obs (cli_balance Cronos sender "basetcro") (Ret 30000000000100000000000);
    Obs (cli_balance Chainmain receiver "basecro") (Ret 1000000000000000000000);
    Obs (cli_ibc_transfer Cronos sender receiver "1000basetcro" "channel-0" 1
           "0basecro" None) (Ret rsp);
    Obs (cli_event_query_tx_for Cronos (rsp_txhash rsp)) (Ret rsp_tx);
    Obs (cli_pay_packet_fee Cronos "transfer" "channel-0" packet_seq
           "10ibcfee" "10ibcfee" "10ibcfee" sender) (Ret rsp_fee);
    Obs (cli_balance Cronos sender "ibcfee") (Ret (old_amt_sender_fee - 20)) ]
  ++ polls
  ++ [ Obs (cli_balance Cronos relayer "ibcfee") (Ret amount);
       Obs (cli_balance Cronos (eth_to_bech32 ext RELAYER_CALLER) "ibcfee")
         (Ret amount_caller);
       Obs (cli_balances Cronos sender)
         (Ret [ Coin "basetcro" (str_int (30000000000100000000000 - 1000));
                Coin "ibcfee" (str_int (old_amt_sender_fee - 20)) ]) ].

(** A call that reads the fee balance of the relayer or of its caller. *)
Definition fee_balance_poll (relayer relayer_caller : string) (o : obs) : Prop :=
  exists r, o = Obs (cli_balance Cronos relayer "ibcfee") r
            \/ o = Obs (cli_balance Cronos relayer_caller "ibcfee") r.

(** Ledgers on which the incentivized transfer passes with the reward split
    between the relayer and its caller. *)
Definition rewarding_ledgers : script := fun n q =>
  match q return result (answer q) with
  | cli_address Chainmain _ => Ret "cro1receiver"
  | cli_address Cronos name => Ret ("crc1" +:+ name)
  | cli_ibc_transfer _ _ _ _ _ _ _ _ => Ret (TxResponse 0 "" [] "4A1F")
  | cli_event_query_tx_for _ _ => Ret (TxResponse 0 "" [] "4A1F")
  | cli_pay_packet_fee _ _ _ _ _ _ _ _ => Ret (TxResponse 0 "" [] "7C2E")
  | cli_balance _ _ _ =>
    Ret (match n with
         | 3%nat | 12%nat => 100
         | 4%nat => 0
         | 5%nat => 1000
         | 6%nat | 21%nat | 22%nat => 30000000000100000000000
         | 11%nat => 980
         | 13%nat => 110
         | 14%nat => 10
         | 20%nat => 30000000000100000000000 - 1000
         | 23%nat => 1000000000000000000000 - 100000000
         | _ => 1000000000000000000000
         end)
  | cli_balances Cronos _ =>
    Ret [ Coin "basetcro" "30000000000099999999000"; Coin "ibcfee" "980" ]
  | cli_balances Chainmain _ =>
    Ret [ Coin "basecro" "1000000000000000000000";
          Coin (ibc_denom "channel-0" "basetcro") "1000" ]
  | node_rpc _ _ => Ret "tcp://127.0.0.1:26657"
  | cli_ibc_denom_trace _ _ _ => Ret (DenomTrace "transfer/channel-0" "basetcro")
  | _ => Raise TransientQueryError
  end.

(** A receive event that names the same receiver and amount twice. *)
Definition resent_attributes : list attribute :=
  [ Attribute "receiver" "cro1a"; Attribute "amount" "10basecro";
    Attribute "receiver" "cro1b"; Attribute "amount" "10basecro";
    Attribute "receiver" "cro1a"; Attribute "amount" "10basecro" ].

(** Two different pairs with the same rendering. *)
Definition colliding_attributes : list attribute :=
  [ Attribute "receiver" "a:b"; Attribute "amount" "c";
    Attribute "receiver" "a"; Attribute "amount" "b:c" ].

(** A transaction result that carries one transfer event twice. *)
Definition doubled_events : list event :=
  [ Event "transfer" [Attribute "recipient" "cro1a"; Attribute "amount" "10basecro"];
    Event "message" [Attribute "sender" "cro1b"];
    Event "message" [Attribute "sender" "cro1b"];
    Event "transfer" [Attribute "recipient" "cro1a"; Attribute "amount" "10basecro"] ].

(** * Further functions of the harness *)

(** ** The duplicate check of ibc_transfer_with_hermes *)

#[global] Instance truthy_str : Truthy string := fun s => negb (bool_decide (s = "")).
#[global] Instance truthy_optional {A} `{Truthy A} : Truthy (option A) := fun o =>
  match o with
  | None => false
  | Some a => truthy a
  end.

(** The closing loop of [ibc_transfer_with_hermes], over the events of the
    [MsgRecvPacket] transaction: [dup = find_duplicate(event["attributes"])]
    followed by [assert not dup]. *)
Fixpoint check_duplicate_recv_events (events : list event) : result unit :=
  match events with
  | [] => Ret tt
  | event :: rest =>
    match find_duplicate (ev_attributes event) with
    | Raise e => Raise e
    | Ret dup =>
      if negb (truthy dup) then check_duplicate_recv_events rest
      else Raise AssertionError
    end
  end.

(** An event is clean when it has attributes and no rendered pair of its
    record groups occurs twice. *)
Definition clean_event (ev : event) : Prop :=
  ev_attributes ev <> [] /\ NoDup (map render (pairs_of (ev_attributes ev))).

(** A block without transactions. *)
Definition empty_block : script := fun _ q =>
  match q return result (answer q) with
  | requests_get _ => Ret (BlockResult [])
  | _ => Raise TransientQueryError
  end.

(** A relayer paid in full while its caller account, funded before, is not. *)
Definition relayer_only_payout : script := fun n q =>
  match q return result (answer q) with
  | cli_balance _ _ _ => Ret (match n with 0%nat => 120 | _ => 5 end)
  | _ => Raise TransientQueryError
  end.

(** ** get_next_channel *)

(** [s.removeprefix(prefix)]. *)
Definition removeprefix (prefix s : string) : string :=
  if String.prefix prefix s
  then substring (String.length prefix) (String.length s - String.length prefix) s
  else s.

(** [max] keeps the item in hand unless the next one is strictly greater;
    [str] compares by code point, which on UTF-8 bytes is byte order. *)
Fixpoint max_from (largest : string) (items : list string) : string :=
  match items with
  | [] => largest
  | x :: rest => max_from (if String.ltb largest x then x else largest) rest
  end.

(** [max(generator)] over strings. *)
Definition py_max (items : list string) : result string :=
  match items with
  | [] => Raise ValueError
  | x :: rest => Ret (max_from x rest)
  end.

Definition get_next_channel (ext : externals) (cli : chain) (connid : string)
    : prog string :=
  let prefix := "channel-" in
  channels ← call (cli_ibc_query_channels cli connid);
  c ← (if len channels >? 0 then
         c ← lift (py_max (map channel_id channels));
         n ← lift (py_int ext (removeprefix prefix c));
         mret (n + 1)
       else mret 0);
  mret (prefix +:+ str_int c).

(** [int] on plain decimal numerals, for examples. *)
Definition decimal_int (s : string) : result Z :=
  match NilZero.int_of_string s with
  | Some i => Ret (Z.of_int i)
  | None => Raise ValueError
  end.

Definition decimal_externals : externals :=
  Externals (fun addr => addr)
    (fun _ _ _ => Ret {[ "packet_sequence" := "7" ]})
    decimal_int
    plain_dumps
    (fun base_port => base_port + 7).

(** A connection with the eleven channels channel-0 ... channel-10. *)
Definition eleven_channels : list channel :=
  map (fun i => Channel ("channel-" +:+ str_int i) "STATE_OPEN") (range 0 11).

Definition eleven_channels_open : script := fun _ q =>
  match q return result (answer q) with
  | cli_ibc_query_channels _ _ => Ret eleven_channels
  | _ => Raise TransientQueryError
  end.

(** ** assert_channel_open_init *)

(** An outcome that can also be the [StopIteration] of [next] on an
    exhausted generator. *)
Inductive outcome (A : Type) : Type :=
| Returned (a : A)
| Raised (e : exn)
| StopIteration.
Arguments Returned {A} a.
Arguments Raised {A} e.
Arguments StopIteration {A}.

(** [(evt["attributes"][0]["value"], evt["attributes"][1]["value"])]. *)
Definition first_two_values (evt : event) : outcome (string * string) :=
  match ev_attributes evt !! 0%nat, ev_attributes evt !! 1%nat with
  | Some a0, Some a1 => Returned (attr_value a0, attr_value a1)
  | _, _ => Raised IndexError
  end.

Definition assert_channel_open_init (rsp : tx_response) : outcome (string * string) :=
  if negb (rsp_code rsp =? 0) then Raised AssertionError
  else
    match next (filter (fun evt => ev_type evt = "channel_open_init") (rsp_events rsp)) with
    | None => StopIteration
    | Some evt => first_two_values evt
    end.

(** ** The way back in ibc_incentivized_transfer *)

(** The calls of a passing [ibc_incentivized_transfer] after the check of
    the sender's balances: the trace and receiver checks, the transfer back
    and the final balances. *)
Definition refund_calls (receiver sender node : string) (rsp_back : tx_response)
    (polls : list obs) (changed : Z) : list obs :=
  [ Obs (node_rpc Chainmain 0) (Ret node);
    Obs (cli_ibc_denom_trace Cronos "transfer/channel-0/basetcro" node)
      (Ret (DenomTrace "transfer/channel-0" "basetcro"));
    Obs (cli_balances Chainmain receiver)
      (Ret [ Coin "basecro" "1000000000000000000000";
             Coin (ibc_denom "channel-0" "basetcro") "1000" ]);
    Obs (cli_ibc_transfer Chainmain receiver sender
           ("1000" +:+ ibc_denom "channel-0" "basetcro") "channel-0" 1
           "100000000basecro" None) (Ret rsp_back) ]
  ++ polls
  ++ [ Obs (cli_balance Cronos sender "basetcro") (Ret changed);
       Obs (cli_balance Cronos sender "basetcro") (Ret 30000000000100000000000);
       Obs (cli_balance Chainmain receiver "basecro")
         (Ret (1000000000000000000000 - 100000000)) ].

(** [cb] of [ibc_incentivized_transfer]. *)
Definition has_packet_sequence (attrs : gmap string string) : bool :=
  bool_decide (is_Some (attrs !! "packet_sequence")).

(** ** Calls that move funds *)

Definition is_pay_packet_fee (o : obs) : bool :=
  match o with
  | Obs (cli_pay_packet_fee _ _ _ _ _ _ _ _) _ => true
  | Obs _ _ => false
  end.

(** Ledgers that hold the wrong amount for the sender at the start. *)
Definition underfunded_ledgers : script := fun n q =>
  match q return result (answer q) with
  | cli_address _ name => Ret ("crc1" +:+ name)
  | cli_balance _ _ _ => Ret 1000
  | cli_ibc_transfer _ _ _ _ _ _ _ _ => Ret (TxResponse 0 "" [] "4A1F")
  | cli_pay_packet_fee _ _ _ _ _ _ _ _ => Ret (TxResponse 0 "" [] "7C2E")
  | _ => Raise TransientQueryError
  end.

(** A transfer submitted on Chainmain, the direction of the return legs. *)
Definition is_return_transfer (o : obs) : bool :=
  match o with
  | Obs (cli_ibc_transfer Chainmain _ _ _ _ _ _ _) _ => true
  | Obs _ _ => false
  end.

(** Ledgers on which the receiver is never credited. *)
Definition stuck_ledgers : script := fun n q =>
  match q return result (answer q) with
  | cli_address Cronos _ => Ret "crc1sender"
  | cli_address Chainmain _ => Ret "cro1receiver"
  | cli_ibc_transfer _ _ _ _ _ _ _ _ => Ret (TxResponse 0 "" [] "4A1F")
  | cli_balance Chainmain _ _ => Ret 1000000000000000000000
  | cli_balance Cronos _ _ => Ret (30000000000000000000000 - 1000)
  | cli_balances _ _ => Ret [Coin "basecro" "1000000000000000000000"]
  | node_rpc _ _ => Ret "tcp://127.0.0.1:26657"
  | cli_ibc_denom_trace _ _ _ => Ret (DenomTrace "transfer/channel-0" "basetcro")
  | _ => Raise TransientQueryError
  end.

Definition three_polls : poller := Poller 1 3 propagate_errors.

(** ** Status *)

(** [class Status(IntEnum): PENDING, SUCCESS, FAIL = range(3)]. *)
Inductive Status : Type := PENDING | SUCCESS | FAIL.

Definition Status_value (s : Status) : Z :=
  match s with
  | PENDING => 0
  | SUCCESS => 1
  | FAIL => 2
  end.

(** A contract that reports the packet as pending twice and then failed. *)
Definition failing_packet : script := fun n q =>
  match q return result (answer q) with
  | caller_getStatus _ _ _ =>
    Ret (if (n <? 2)%nat then Status_value PENDING else Status_value FAIL)
  | _ => Raise TransientQueryError
  end.

(** An account that has one transaction at first and two from the third
    query on. *)
Definition arriving_tx : script := fun n q =>
  match q return result (answer q) with
  | cli_query_all_txs _ _ => Ret (if (n <? 2)%nat then ["A1"] else ["A1"; "B2"])
  | _ => Raise TransientQueryError
  end.

(** A channel that is listed from the second query on and open from the
    third. *)
Definition opening_channel : script := fun n q =>
  match q return result (answer q) with
  | cli_ibc_query_channels _ _ =>
    Ret (match n with
         | 0%nat => [Channel "channel-0" "STATE_OPEN"]
         | 1%nat => [Channel "channel-0" "STATE_OPEN"; Channel "channel-1" "STATE_INIT"]
         | _ => [Channel "channel-0" "STATE_OPEN"; Channel "channel-1" "STATE_OPEN"]
         end)
  | _ => Raise TransientQueryError
  end.

(** * Properties *)

(** ** The denomination derivation *)

Lemma nibble_range (x : Z) : 0 <= Z.land x 0xF < 16.
Proof.
  change 0xF with (Z.ones 4). rewrite Z.land_ones by lia.
  apply Z.mod_pos_bound. lia.
Qed.

Lemma upper_hex_digit_correct (d : Z) :
  0 <= d < 16 -> upper_ascii (hex_digit d) = upper_hex_digit d.
Proof.
  intros Hd.
  assert (Hcases : d = 0 \/ d = 1 \/ d = 2 \/ d = 3 \/ d = 4 \/ d = 5 \/ d = 6
    \/ d = 7 \/ d = 8 \/ d = 9 \/ d = 10 \/ d = 11 \/ d = 12 \/ d = 13
    \/ d = 14 \/ d = 15) by lia.
  repeat (destruct Hcases as [-> | Hcases]; [reflexivity |]).
  subst d. reflexivity.
Qed.

Lemma upper_hex_digit_is_upper (d : Z) :
  0 <= d < 16 -> is_upper_hex_char (upper_hex_digit d) = true.
Proof.
  intros Hd.
  assert (Hcases : d = 0 \/ d = 1 \/ d = 2 \/ d = 3 \/ d = 4 \/ d = 5 \/ d = 6
    \/ d = 7 \/ d = 8 \/ d = 9 \/ d = 10 \/ d = 11 \/ d = 12 \/ d = 13
    \/ d = 14 \/ d = 15) by lia.
  repeat (destruct Hcases as [-> | Hcases]; [reflexivity |]).
  subst d. reflexivity.
Qed.

Lemma upper_hex_correct (bs : list Z) : upper (hex bs) = upper_hex bs.
Proof.
  induction bs as [| b bs IH]; [reflexivity |].
  cbn [hex upper upper_hex].
  rewrite !upper_hex_digit_correct by apply nibble_range.
  by rewrite IH.
Qed.

Lemma upper_hex_length (bs : list Z) :
  String.length (upper_hex bs) = (2 * length bs)%nat.
Proof.
  induction bs as [| b bs IH]; [reflexivity |].
  cbn [upper_hex String.length length]. rewrite IH. lia.
Qed.

Lemma upper_hex_chars (bs : list Z) :
  string_forallb is_upper_hex_char (upper_hex bs) = true.
Proof.
  induction bs as [| b bs IH]; [reflexivity |].
  cbn [upper_hex string_forallb].
  rewrite !upper_hex_digit_is_upper by apply nibble_range.
  by rewrite IH.
Qed.

Lemma digest_length (msg : list Z) : length (SHA256.digest msg) = 32%nat.
Proof. reflexivity. Qed.

(** C1. [ibc_denom channel denom] is ["ibc/"] followed by the uppercase
    hexadecimal SHA-256 digest of ["transfer/" + channel + "/" + denom]: it
    agrees with the derivation as the specification words it, and the digest
    part is untruncated, 64 characters long, all of them uppercase
    hexadecimal digits.  The result depends on the two arguments only, so a
    second call on the same pair gives the same string. *)
Theorem ibc_denom_spec (channel denom : string) :
  ibc_denom channel denom = derive_spec channel denom
  /\ exists h,
       ibc_denom channel denom = "ibc/" +:+ h
       /\ h = upper_hex (SHA256.digest (encode ("transfer/" +:+ channel +:+ "/" +:+ denom)))
       /\ String.length h = 64%nat
       /\ string_forallb is_upper_hex_char h = true.
Proof.
  unfold ibc_denom, derive_spec, hexdigest. rewrite upper_hex_correct.
  split; [reflexivity |].
  eexists. split; [reflexivity |]. split; [reflexivity |].
  split; [| apply upper_hex_chars].
  by rewrite upper_hex_length, digest_length.
Qed.

(** The derived name of the scenarios' transfer path. *)
Lemma ibc_denom_channel0_basetcro :
  ibc_denom "channel-0" "basetcro"
  = "ibc/6B5A664BF0AF4F71B2F0BAA33141E2F1321242FBD5D19762F541EC971ACB0865".
Proof. vm_compute. reflexivity. Qed.

(** ** find_duplicate *)

Section FindDuplicate.
Implicit Types (attributes : list attribute) (res : gset string)
  (seen l : list string).

(** Once [value0] is bound, the loop reports the first repeated rendering
    of the record groups it walks over. *)
Lemma find_duplicate_loop_bound key res seen cur attributes :
  (forall s, s ∈ res <-> s ∈ seen) ->
  find_duplicate_loop key res (Some cur) attributes
  = Ret (first_repeat_from seen (map render (group_pairs key cur attributes))).
Proof.
  revert res seen cur.
  induction attributes as [| a rest IH]; intros res seen cur Hres; [reflexivity |].
  cbn [find_duplicate_loop group_pairs].
  destruct (decide (attr_key a = key)) as [Hk | Hk]; [by apply IH |].
  destruct (decide (attr_key a = "amount")) as [Ha | Ha]; [| by apply IH].
  cbn [map first_repeat_from]. unfold render at 1. cbn [fst snd].
  destruct (decide (_ ∈ res)) as [Hin | Hin];
    destruct (decide (_ ∈ seen)) as [Hin' | Hin'];
    [reflexivity | by apply Hres in Hin | by apply Hres in Hin' |].
  apply IH. intros s. rewrite elem_of_union, elem_of_singleton, elem_of_cons.
  by rewrite Hres.
Qed.

Lemma find_duplicate_first_repeat a rest :
  find_duplicate (a :: rest)
  = Ret (first_repeat (map render (pairs_of (a :: rest)))).
Proof.
  unfold find_duplicate, pairs_of, first_repeat.
  cbn [find_duplicate_loop group_pairs].
  destruct (decide (attr_key a = attr_key a)) as [_ | Hne]; [| done].
  apply find_duplicate_loop_bound. intros s.
  rewrite elem_of_nil. set_solver.
Qed.

Lemma first_repeat_from_None seen l :
  first_repeat_from seen l = None <-> NoDup l /\ forall x, x ∈ l -> x ∉ seen.
Proof.
  revert seen. induction l as [| x l IH]; intros seen; cbn [first_repeat_from].
  - split; [intros _; split; [constructor | intros x Hx; inversion Hx] | done].
  - destruct (decide (x ∈ seen)) as [Hin | Hin].
    + split; [done |]. intros [_ H]. exfalso. apply (H x); [left | done].
    + rewrite IH, NoDup_cons. split.
      * intros [Hnd Hseen]. split; [split; [| done] |].
        -- intros Hx. apply (Hseen x Hx). left.
        -- intros y [-> | Hy]%elem_of_cons; [done |].
           intros Hys. apply (Hseen y Hy). by right.
      * intros [[Hx Hnd] Hseen]. split; [done |].
        intros y Hy [-> | Hys]%elem_of_cons; [done |].
        apply (Hseen y); [by right | done].
Qed.

Lemma first_repeat_from_Some seen l s :
  first_repeat_from seen l = Some s ->
  exists l1 l2, l = l1 ++ s :: l2 /\ first_repeat_from seen l1 = None
                /\ (s ∈ seen \/ s ∈ l1).
Proof.
  revert seen. induction l as [| x l IH]; intros seen; cbn [first_repeat_from];
    [done |].
  destruct (decide (x ∈ seen)) as [Hin | Hin].
  - intros [= ->]. exists [], l. split; [done |]. split; [done | by left].
  - intros (l1 & l2 & -> & Hnone & Hs)%IH.
    exists (x :: l1), l2. split; [done |]. split.
    + cbn [first_repeat_from]. by rewrite decide_False.
    + destruct Hs as [[-> | Hs]%elem_of_cons | Hs].
      * right. by left.
      * by left.
      * right. by right.
Qed.
End FindDuplicate.

Lemma first_repeat_None (l : list string) : first_repeat l = None <-> NoDup l.
Proof.
  unfold first_repeat. rewrite first_repeat_from_None. split; [by intros [? _] |].
  intros Hnd. split; [done |]. intros x _. apply not_elem_of_nil.
Qed.

Lemma first_repeat_Some (l : list string) (s : string) :
  first_repeat l = Some s ->
  exists l1 l2, l = l1 ++ s :: l2 /\ NoDup l1 /\ s ∈ l1.
Proof.
  unfold first_repeat. intros (l1 & l2 & -> & Hnone & Hs)%first_repeat_from_Some.
  exists l1, l2. split; [done |]. split.
  - by apply first_repeat_None.
  - destruct Hs as [Hs | Hs]; [by apply elem_of_nil in Hs | done].
Qed.

(** C3 (amended). On a non-empty attribute sequence, [find_duplicate] walks
    the record groups once, each rendered as ["<value>:<amount>"]: when no
    rendering occurs twice it returns [None]; otherwise it returns the first
    rendering that recurs, at its second occurrence (everything before it is
    repeat-free and already contains it). *)
Theorem find_duplicate_reports_first_repeat (attributes : list attribute) :
  attributes <> [] ->
  (NoDup (map render (pairs_of attributes)) /\ find_duplicate attributes = Ret None)
  \/ (exists l1 s l2,
        map render (pairs_of attributes) = l1 ++ s :: l2
        /\ NoDup l1 /\ s ∈ l1
        /\ find_duplicate attributes = Ret (Some s)).
Proof.
  destruct attributes as [| a rest]; [done |]. intros _.
  rewrite find_duplicate_first_repeat.
  destruct (first_repeat _) as [s |] eqn:Hrep.
  - right. apply first_repeat_Some in Hrep as (l1 & l2 & Heq & Hnd & Hin).
    by exists l1, s, l2.
  - left. by apply first_repeat_None in Hrep.
Qed.

Lemma find_duplicate_reports_first_repeat_witness :
  (NoDup (map render (pairs_of resent_attributes))
   /\ find_duplicate resent_attributes = Ret None)
  \/ (exists l1 s l2,
        map render (pairs_of resent_attributes) = l1 ++ s :: l2
        /\ NoDup l1 /\ s ∈ l1
        /\ find_duplicate resent_attributes = Ret (Some s)).
Proof.
  apply (find_duplicate_reports_first_repeat resent_attributes).
  discriminate.
Defined.

(** C3 as first stated fails twice over: the empty sequence has no repeated
    pair and yet makes [find_duplicate] raise, and two different pairs whose
    renderings coincide are reported as a duplicate. *)
Lemma find_duplicate_claim_counterexample :
  (NoDup (pairs_of []) /\ find_duplicate [] = Raise IndexError)
  /\ (pairs_of colliding_attributes = [("a:b", "c"); ("a", "b:c")]
      /\ NoDup (pairs_of colliding_attributes)
      /\ find_duplicate colliding_attributes = Ret (Some "a:b:c")).
Proof.
  split; [split; [constructor | reflexivity] |].
  split; [reflexivity |]. split; [| by vm_compute].
  apply (bool_decide_unpack _). by vm_compute.
Qed.

(** C10. [find_duplicate] raises [IndexError] on the empty sequence, from
    reading [attributes[0]], where [None] would be the no-duplicate answer;
    on every non-empty sequence it returns. *)
Theorem find_duplicate_total_iff_nonempty (attributes : list attribute) :
  (attributes = [] /\ find_duplicate attributes = Raise IndexError)
  \/ (attributes <> [] /\ exists r, find_duplicate attributes = Ret r).
Proof.
  destruct attributes as [| a rest]; [by left |].
  right. split; [done |]. eexists. apply find_duplicate_first_repeat.
Qed.

(** ** Running sequenced and guarded programs *)

Section RunFacts.
Context {W : Type} (respond : forall q : query, W -> result (answer q) * W).

Lemma run_bind {A B} (p : prog A) (f : A -> prog B) (w : W) :
  run respond (p ≫= f) w =
  match run respond p w with
  | (Ret a, w1, t1) =>
    let '(r, w2, t2) := run respond (f a) w1 in (r, w2, t1 ++ t2)
  | (Raise e, w1, t1) => (Raise e, w1, t1)
  end.
Proof.
  revert w. induction p as [[a | e] | q k IH]; intros w.
  - cbn. by destruct (run respond (f a) w) as [[r w2] t2].
  - reflexivity.
  - change (Ask q k ≫= f) with (Ask q (fun r => k r ≫= f)).
    cbn [run]. destruct (respond q w) as [r w1]. rewrite IH.
    destruct (run respond (k r) w1) as [[[a | e] w2] t1]; [| reflexivity].
    by destruct (run respond (f a) w2) as [[r2 w3] t2].
Qed.

Lemma run_try_except {A} (body : prog A) (handler : exn -> option (prog A)) (w : W) :
  run respond (try_except body handler) w =
  match run respond body w with
  | (Ret a, w1, t1) => (Ret a, w1, t1)
  | (Raise e, w1, t1) =>
    match handler e with
    | Some h => let '(r, w2, t2) := run respond h w1 in (r, w2, t1 ++ t2)
    | None => (Raise e, w1, t1)
    end
  end.
Proof.
  revert w. induction body as [[a | e] | q k IH]; intros w.
  - reflexivity.
  - cbn. destruct (handler e) as [h |]; [| reflexivity].
    by destruct (run respond h w) as [[r w2] t2].
  - cbn [try_except run]. destruct (respond q w) as [r w1]. rewrite IH.
    destruct (run respond (k r) w1) as [[[a | e] w2] t1]; [reflexivity |].
    destruct (handler e) as [h |]; [| reflexivity].
    by destruct (run respond h w2) as [[r2 w3] t2].
Qed.

(** The [try]/[except TimeoutError]/[assert raised] idiom shared by the two
    timeout-expecting waiters, in terms of the guarded wait's outcome. *)
Lemma run_expect_timeout (body : prog unit) (w : W) :
  run respond
    (raised ← try_except (body ;; mret (None : option bool))
       (fun e => match e with
                 | TimeoutError => Some (mret (Some true))
                 | _ => None
                 end);
     match raised with
     | None => raise (UnboundLocalError "raised")
     | Some b => assert_ b
     end) w =
  match run respond body w with
  | (Ret _, w1, t1) => (Raise (UnboundLocalError "raised"), w1, t1)
  | (Raise TimeoutError, w1, t1) => (Ret tt, w1, t1)
  | (Raise e, w1, t1) => (Raise e, w1, t1)
  end.
Proof.
  rewrite run_bind, run_try_except, run_bind.
  destruct (run respond body w) as [[[[] | e] w1] t1]; cbn.
  - by rewrite !app_nil_r.
  - destruct e; cbn; by rewrite ?app_nil_r.
Qed.
End RunFacts.

(** ** Reading a successful run backwards *)

Section RunInversion.
Context {W : Type} (respond : forall q : query, W -> result (answer q) * W).

Lemma run_bind_ret {A B} (p : prog A) (f : A -> prog B) (w w' : W) (b : B) tr :
  run respond (p ≫= f) w = (Ret b, w', tr) ->
  exists a w1 t1 t2,
    run respond p w = (Ret a, w1, t1)
    /\ run respond (f a) w1 = (Ret b, w', t2)
    /\ tr = t1 ++ t2.
Proof.
  rewrite run_bind.
  destruct (run respond p w) as [[[a | e] w1] t1]; [| done].
  destruct (run respond (f a) w1) as [[r w2] t2] eqn:Hf.
  intros [= -> -> <-]. by exists a, w1, t1, t2.
Qed.

Lemma run_call_ret (q : query) (w w' : W) (a : answer q) tr :
  run respond (call q) w = (Ret a, w', tr) ->
  respond q w = (Ret a, w') /\ tr = [Obs q (Ret a)].
Proof.
  cbn. destruct (respond q w) as [r w1]. intros [= -> -> <-]. done.
Qed.

Lemma run_call_raise (q : query) (w w' : W) (e : exn) tr :
  run respond (call q) w = (Raise e, w', tr) ->
  respond q w = (Raise e, w') /\ tr = [Obs q (Raise e)].
Proof.
  cbn. destruct (respond q w) as [r w1]. intros [= -> -> <-]. done.
Qed.

Lemma run_mret_ret {A} (a b : A) (w w' : W) tr :
  run respond (mret a) w = (Ret b, w', tr) -> b = a /\ w' = w /\ tr = [].
Proof. cbn. by intros [= -> -> <-]. Qed.

Lemma run_assert_ret (c : bool) (w w' : W) (u : unit) tr :
  run respond (assert_ c) w = (Ret u, w', tr) -> c = true /\ w' = w /\ tr = [].
Proof. destruct c; cbn; [by intros [= <- <-] | done]. Qed.

Lemma run_lift_ret {A} (r : result A) (a : A) (w w' : W) tr :
  run respond (lift r) w = (Ret a, w', tr) -> r = Ret a /\ w' = w /\ tr = [].
Proof. cbn. by intros [= -> -> <-]. Qed.

Lemma run_getitem_ret (d : gmap string string) (k v : string) (w w' : W) tr :
  run respond (getitem d k) w = (Ret v, w', tr) ->
  d !! k = Some v /\ w' = w /\ tr = [].
Proof. unfold getitem. destruct (d !! k); cbn; [by intros [= -> -> <-] | done]. Qed.

(** A wait that returns ended on a truthy evaluation, after idle ones. *)
Lemma run_poll_ret {A} `{Truthy A} (cfg : poller) (fn : prog A) (n : nat)
    (w w' : W) (u : unit) tr :
  run respond (poll cfg n fn) w = (Ret u, w', tr) ->
  exists w1 ts a t,
    idle_polls respond cfg fn w ts w1
    /\ run respond fn w1 = (Ret a, w', t)
    /\ truthy a = true
    /\ tr = ts ++ t.
Proof.
  revert w tr. induction n as [| n IH]; intros w tr; [done |].
  cbn [poll]. intros (ready & w1 & t1 & t2 & Hat & Hrest & ->)%run_bind_ret.
  unfold attempt in Hat. rewrite run_try_except, run_bind in Hat.
  destruct (run respond fn w) as [[[a | e] wa] ta] eqn:Hfn.
  - cbn in Hat. injection Hat as <- <- <-. rewrite app_nil_r in *.
    destruct (truthy a) eqn:Ha.
    + apply run_mret_ret in Hrest as (_ & -> & ->).
      exists w, [], a, ta. split; [constructor |]. by rewrite app_nil_r.
    + apply IH in Hrest as (w2 & ts & a' & t & Hidle & Hlast & Ht & ->).
      exists w2, (ta ++ ts), a', t. split; [by eapply idle_not_ready |].
      by rewrite app_assoc.
  - destruct (on_error cfg) eqn:Hpol; [done |]. destruct e; try done.
    cbn in Hat. injection Hat as <- <- <-. rewrite app_nil_r in *.
    apply IH in Hrest as (w2 & ts & a' & t & Hidle & Hlast & Ht & ->).
    exists w2, (ta ++ ts), a', t. split; [by eapply idle_swallowed |].
    by rewrite app_assoc.
Qed.

Lemma run_wait_for_fn_ret {A} `{Truthy A} (cfg : poller) (name : string)
    (fn : prog A) (timeout : option Z) (w w' : W) (u : unit) tr :
  run respond (wait_for_fn cfg name fn timeout) w = (Ret u, w', tr) ->
  exists w1 ts a t,
    idle_polls respond cfg fn w ts w1
    /\ run respond fn w1 = (Ret a, w', t)
    /\ truthy a = true
    /\ tr = ts ++ t.
Proof. apply run_poll_ret. Qed.

Lemma idle_polls_Forall {A} `{Truthy A} (cfg : poller) (fn : prog A)
    (Q : obs -> Prop) (w w' : W) ts :
  (forall w0 a w1 t,
     run respond fn w0 = (Ret a, w1, t) -> truthy a = false -> Forall Q t) ->
  (forall w0 w1 t,
     run respond fn w0 = (Raise TransientQueryError, w1, t) -> Forall Q t) ->
  idle_polls respond cfg fn w ts w' -> Forall Q ts.
Proof.
  intros Hret Hraise. induction 1 as [| ? ? ? ? ? ? Hrun Ha _ IH | ? ? ? ? ? _ Hrun _ IH].
  - constructor.
  - apply Forall_app. split; [by eapply Hret | done].
  - apply Forall_app. split; [by eapply Hraise | done].
Qed.
End RunInversion.

(** ** Channel readiness *)

Lemma next_filter_state (channels : list channel) (id : string) :
  (Forall (fun ch => channel_id ch <> id) channels
   /\ next (map state (filter (fun ch => channel_id ch = id) channels)) = None)
  \/ (exists pre ch post,
        channels = pre ++ ch :: post
        /\ Forall (fun c => channel_id c <> id) pre
        /\ channel_id ch = id
        /\ next (map state (filter (fun ch => channel_id ch = id) channels))
           = Some (state ch)).
Proof.
  induction channels as [| c rest IH]; [left; by split |].
  destruct (decide (channel_id c = id)) as [Hc | Hc].
  - right. exists [], c, rest. repeat split; [constructor | done |].
    by rewrite filter_cons_True.
  - rewrite filter_cons_False by done.
    destruct IH as [[Hall Hnone] | (pre & ch & post & -> & Hpre & Hch & Hsome)].
    + left. split; [by constructor | done].
    + right. exists (c :: pre), ch, post. repeat split; [by constructor | done | done].
Qed.

(** C7. The readiness predicate, on whatever channel list the query
    returns, returns [False] (it does not raise) when no channel has the
    requested id; otherwise it returns whether the state of the first
    channel with that id equals the target.  Without a [target] argument the
    waiter polls it for ["STATE_OPEN"]. *)
Theorem check_channel_ready_spec {W : Type}
    (respond : forall q : query, W -> result (answer q) * W)
    (cli : chain) (connid id target : string) (channels : list channel) (w w' : W) :
  respond (cli_ibc_query_channels cli connid) w = (Ret channels, w') ->
  (exists b,
     run respond (check_channel_ready cli connid id target) w
     = (Ret b, w', [Obs (cli_ibc_query_channels cli connid) (Ret channels)])
     /\ ((Forall (fun ch => channel_id ch <> id) channels /\ b = false)
         \/ (exists pre ch post,
               channels = pre ++ ch :: post
               /\ Forall (fun c => channel_id c <> id) pre
               /\ channel_id ch = id
               /\ b = bool_decide (state ch = target))))
  /\ (forall cfg : poller,
        wait_for_check_channel_ready cfg cli connid id None
        = wait_for_fn cfg "channel ready"
            (check_channel_ready cli connid id "STATE_OPEN") (Some 30)).
Proof.
  intros Hq. split; [| reflexivity].
  unfold check_channel_ready.
  rewrite run_bind. cbn [call run]. rewrite Hq.
  destruct (next_filter_state channels id)
    as [[Hall ->] | (pre & ch & post & Heq & Hpre & Hch & ->)]; cbn.
  - exists false. split; [done |]. by left.
  - eexists. split; [done |]. right. by exists pre, ch, post.
Qed.

Lemma check_channel_ready_spec_witness :
  exists b,
    run (scripted two_channels)
      (check_channel_ready Cronos "connection-0" "channel-1" "STATE_OPEN") 0%nat
    = (Ret b, 1%nat,
       [Obs (cli_ibc_query_channels Cronos "connection-0")
          (Ret [Channel "channel-0" "STATE_TRYOPEN"; Channel "channel-1" "STATE_OPEN"])])
    /\ b = true.
Proof.
  destruct (check_channel_ready_spec (scripted two_channels) Cronos "connection-0"
              "channel-1" "STATE_OPEN"
              [Channel "channel-0" "STATE_TRYOPEN"; Channel "channel-1" "STATE_OPEN"]
              0%nat 1%nat eq_refl) as [(b & Hrun & _) _].
  exists b. split; [exact Hrun |].
  revert Hrun. vm_compute. congruence.
Defined.

(** ** assert_duplicate *)

Lemma assert_duplicate_loop_first_repeat (dumps : event -> string)
    (values : gset string) (seen : list string) (events : list event) :
  (forall s, s ∈ values <-> s ∈ seen) ->
  assert_duplicate_loop dumps values events
  = match first_repeat_from seen
            (map dumps (filter (fun e => ev_type e <> "message") events)) with
    | Some _ => Raise AssertionError
    | None => Ret tt
    end.
Proof.
  revert values seen.
  induction events as [| e rest IH]; intros values seen Hv; [reflexivity |].
  cbn [assert_duplicate_loop].
  destruct (decide (ev_type e = "message")) as [Hm | Hm].
  - rewrite filter_cons_False by (intros Hne; by apply Hne). by apply IH.
  - rewrite filter_cons_True by done. cbn [map first_repeat_from].
    destruct (decide (_ ∈ values)) as [Hin | Hin];
      destruct (decide (_ ∈ seen)) as [Hin' | Hin'];
      [reflexivity | by apply Hv in Hin | by apply Hv in Hin' |].
    apply IH. intros s. rewrite elem_of_union, elem_of_singleton, elem_of_cons.
    by rewrite Hv.
Qed.

(** C8. Given the events of the block's first transaction result,
    [assert_duplicate] fails its assertion exactly when the serializations
    of the events whose type is not ["message"] contain a repeat, and passes
    when they are all distinct; ["message"] events are filtered out before
    any comparison. *)
Theorem assert_duplicate_spec {W : Type}
    (respond : forall q : query, W -> result (answer q) * W)
    (ext : externals) (base_port height : Z) (res : block_result)
    (first : tx_result) (others : list tx_result) (w w' : W) :
  respond
    (requests_get ("http://127.0.0.1:" +:+ str_int (rpc_port ext base_port)
                   +:+ "/block_results?height=" +:+ str_int height)) w
  = (Ret res, w') ->
  txs_results res = first :: others ->
  exists r,
    run respond (assert_duplicate ext base_port height) w
    = (r, w',
       [Obs (requests_get ("http://127.0.0.1:" +:+ str_int (rpc_port ext base_port)
                           +:+ "/block_results?height=" +:+ str_int height))
          (Ret res)])
    /\ ((NoDup (map (json_dumps ext)
                  (filter (fun e => ev_type e <> "message") (txr_events first)))
         /\ r = Ret tt)
        \/ (~ NoDup (map (json_dumps ext)
                       (filter (fun e => ev_type e <> "message") (txr_events first)))
            /\ r = Raise AssertionError)).
Proof.
  intros Hq Hres. unfold assert_duplicate.
  rewrite run_bind. cbn [call run]. rewrite Hq.
  rewrite run_bind. unfold index. rewrite Hres. cbn.
  rewrite (assert_duplicate_loop_first_repeat _ _ []) by set_solver.
  change (first_repeat_from [] ?l) with (first_repeat l).
  destruct (first_repeat _) as [s |] eqn:Hrep.
  - eexists. split; [done |]. right. split; [| done].
    rewrite <- first_repeat_None. by rewrite Hrep.
  - eexists. split; [done |]. left. split; [| done].
    by apply first_repeat_None.
Qed.

Lemma assert_duplicate_spec_witness :
  exists r,
    run (scripted (one_block doubled_events))
      (assert_duplicate plain_externals 26650 12) 0%nat
    = (r, 1%nat,
       [Obs (requests_get "http://127.0.0.1:26657/block_results?height=12")
          (Ret (BlockResult [TxResult doubled_events]))])
    /\ ((NoDup (map plain_dumps
                  (filter (fun e => ev_type e <> "message") doubled_events))
         /\ r = Ret tt)
        \/ (~ NoDup (map plain_dumps
                       (filter (fun e => ev_type e <> "message") doubled_events))
            /\ r = Raise AssertionError)).
Proof.
  apply (assert_duplicate_spec (scripted (one_block doubled_events)) plain_externals
           26650 12 (BlockResult [TxResult doubled_events])
           (TxResult doubled_events) [] 0%nat 1%nat); reflexivity.
Defined.

(** ** The timeout-expecting waiters *)

Section ExpectTimeout.
Context {W : Type} (respond : forall q : query, W -> result (answer q) * W).
Context (cfg : poller).

Lemma run_wait_for_check_tx (cli : chain) (adr : string) (num_txs t : Z) (w : W) :
  run respond (wait_for_check_tx cfg cli adr num_txs (Some t)) w =
  match run respond (wait_for_fn cfg "transfer tx" (check_tx cli adr num_txs) (Some t)) w with
  | (Ret _, w1, t1) => (Raise (UnboundLocalError "raised"), w1, t1)
  | (Raise TimeoutError, w1, t1) => (Ret tt, w1, t1)
  | (Raise e, w1, t1) => (Raise e, w1, t1)
  end.
Proof. apply run_expect_timeout. Qed.

Lemma run_wait_for_status_change (tcontract id : string) (seq t : Z) (w : W) :
  run respond (wait_for_status_change cfg tcontract id seq (Some t)) w =
  match run respond
          (wait_for_fn cfg "current status" (check_status tcontract id seq) (Some t)) w with
  | (Ret _, w1, t1) => (Raise (UnboundLocalError "raised"), w1, t1)
  | (Raise TimeoutError, w1, t1) => (Ret tt, w1, t1)
  | (Raise e, w1, t1) => (Raise e, w1, t1)
  end.
Proof. apply run_expect_timeout. Qed.

(** C6. With a timeout passed, [wait_for_check_tx] and
    [wait_for_status_change] return normally exactly when the wait they
    guard raised [TimeoutError]: the handler catches it and sets [raised],
    which the closing assertion then accepts. *)
Theorem timeout_is_the_success_outcome (t : Z) (w w' : W) (tr : list obs) :
  (forall (cli : chain) (adr : string) (num_txs : Z),
     run respond (wait_for_check_tx cfg cli adr num_txs (Some t)) w = (Ret tt, w', tr)
     <-> run respond (wait_for_fn cfg "transfer tx" (check_tx cli adr num_txs) (Some t)) w
         = (Raise TimeoutError, w', tr))
  /\ (forall (tcontract id : string) (seq : Z),
        run respond (wait_for_status_change cfg tcontract id seq (Some t)) w = (Ret tt, w', tr)
        <-> run respond
              (wait_for_fn cfg "current status" (check_status tcontract id seq) (Some t)) w
            = (Raise TimeoutError, w', tr)).
Proof.
  split; intros.
  - rewrite run_wait_for_check_tx.
    destruct (run respond _ w) as [[[[] | e] w1] t1]; [done |].
    destruct e; split; intros [= -> ->]; done.
  - rewrite run_wait_for_status_change.
    destruct (run respond _ w) as [[[[] | e] w1] t1]; [done |].
    destruct e; split; intros [= -> ->]; done.
Qed.

(** C9. With a timeout passed, whenever the guarded wait returns because
    the condition came true in time, [wait_for_check_tx] and
    [wait_for_status_change] end in the [NameError] of reading the local
    [raised], which only the [except TimeoutError] clause assigns; no
    assertion failure is reported. *)
Theorem early_success_raises_NameError (t : Z) (w w' : W) (tr : list obs) :
  (forall (cli : chain) (adr : string) (num_txs : Z),
     run respond (wait_for_fn cfg "transfer tx" (check_tx cli adr num_txs) (Some t)) w
     = (Ret tt, w', tr) ->
     run respond (wait_for_check_tx cfg cli adr num_txs (Some t)) w
     = (Raise (UnboundLocalError "raised"), w', tr))
  /\ (forall (tcontract id : string) (seq : Z),
        run respond
          (wait_for_fn cfg "current status" (check_status tcontract id seq) (Some t)) w
        = (Ret tt, w', tr) ->
        run respond (wait_for_status_change cfg tcontract id seq (Some t)) w
        = (Raise (UnboundLocalError "raised"), w', tr))
  /\ is_NameError (UnboundLocalError "raised") = true
  /\ UnboundLocalError "raised" <> AssertionError.
Proof.
  split; [| split; [| done]].
  - intros cli adr num_txs Hwait. by rewrite run_wait_for_check_tx, Hwait.
  - intros tcontract id seq Hwait. by rewrite run_wait_for_status_change, Hwait.
Qed.
End ExpectTimeout.

Lemma timeout_is_the_success_outcome_witness :
  run (scripted (steady_txs [])) (wait_for_check_tx one_second_polls Cronos "cro1a" 0 (Some 3)) 0%nat
  = (Ret tt, 3%nat,
     [Obs (cli_query_all_txs Cronos "cro1a") (Ret []);
      Obs (cli_query_all_txs Cronos "cro1a") (Ret []);
      Obs (cli_query_all_txs Cronos "cro1a") (Ret [])])
  /\ run (scripted (steady_status 0))
       (wait_for_status_change one_second_polls "0xc0" "channel-0" 1 (Some 2)) 0%nat
     = (Ret tt, 2%nat,
        [Obs (caller_getStatus "0xc0" "channel-0" 1) (Ret 0);
         Obs (caller_getStatus "0xc0" "channel-0" 1) (Ret 0)]).
Proof.
  split.
  - apply (proj1 (timeout_is_the_success_outcome (scripted (steady_txs []))
                    one_second_polls 3 0%nat 3%nat _)).
    reflexivity.
  - apply (proj2 (timeout_is_the_success_outcome (scripted (steady_status 0))
                    one_second_polls 2 0%nat 2%nat _)).
    reflexivity.
Defined.

Lemma early_success_raises_NameError_witness :
  run (scripted (steady_txs ["A1"; "B2"]))
    (wait_for_check_tx one_second_polls Cronos "cro1a" 1 (Some 3)) 0%nat
  = (Raise (UnboundLocalError "raised"), 1%nat,
     [Obs (cli_query_all_txs Cronos "cro1a") (Ret ["A1"; "B2"])])
  /\ run (scripted (steady_status 1))
       (wait_for_status_change one_second_polls "0xc0" "channel-0" 1 (Some 2)) 0%nat
     = (Raise (UnboundLocalError "raised"), 1%nat,
        [Obs (caller_getStatus "0xc0" "channel-0" 1) (Ret 1)]).
Proof.
  split.
  - apply (proj1 (early_success_raises_NameError (scripted (steady_txs ["A1"; "B2"]))
                    one_second_polls 3 0%nat 1%nat _)).
    reflexivity.
  - apply (proj1 (proj2 (early_success_raises_NameError (scripted (steady_status 1))
                    one_second_polls 2 0%nat 1%nat _))).
    reflexivity.
Defined.



Ltac run_inv_step :=
  match goal with
  | H : run _ ?p _ = (Ret _, _, _) |- _ =>
    lazymatch p with
    | mbind _ _ => apply run_bind_ret in H as (? & ? & ? & ? & ? & H & ->)
    | call ?q => apply (run_call_ret _ q) in H as [H ->]
    | assert_ _ => apply run_assert_ret in H as (H & -> & ->)
    | mret _ => apply run_mret_ret in H as (? & ? & ?); subst
    | lift _ => apply run_lift_ret in H as (H & -> & ->)
    | getitem _ _ => apply run_getitem_ret in H as (H & -> & ->)
    | for_ _ _ => progress cbn [for_] in H
    | index _ _ => progress cbn [index lookup list_lookup] in H
    end
  | H : bool_decide _ = true |- _ => apply bool_decide_eq_true in H
  | H : (_ =? _) = true |- _ => apply Z.eqb_eq in H
  end.
Ltac run_inv := repeat run_inv_step.

Section RunRaise.
Context {W : Type} (respond : forall q : query, W -> result (answer q) * W).

Lemma run_bind_raise {A B} (p : prog A) (f : A -> prog B) (w w' : W) (e : exn) tr :
  run respond (p ≫= f) w = (Raise e, w', tr) ->
  run respond p w = (Raise e, w', tr)
  \/ exists a w1 t1 t2,
       run respond p w = (Ret a, w1, t1)
       /\ run respond (f a) w1 = (Raise e, w', t2)
       /\ tr = t1 ++ t2.
Proof.
  rewrite run_bind.
  destruct (run respond p w) as [[[a | e0] w1] t1]; [| intros [= -> -> ->]; by left].
  destruct (run respond (f a) w1) as [[r w2] t2] eqn:Hf.
  intros [= -> -> <-]. right. by exists a, w1, t1, t2.
Qed.

Lemma run_assert_raise (c : bool) (w w' : W) (e : exn) tr :
  run respond (assert_ c) w = (Raise e, w', tr) -> e = AssertionError.
Proof. destruct c; cbn; [done | by intros [= <- _ _]]. Qed.
End RunRaise.

Ltac run_raise_step :=
  match goal with
  | H : run _ ?p _ = (Raise _, _, _) |- _ =>
    lazymatch p with
    | mbind _ _ =>
      apply run_bind_raise in H as [H | (? & ? & ? & ? & ? & H & ->)]
    | call ?q => apply (run_call_raise _ q) in H as [H ->]
    | assert_ _ => apply run_assert_raise in H; try discriminate H
    | mret _ => discriminate H
    end
  end.

Section MultiTransfer.
Context {W : Type} (respond : forall q : query, W -> result (answer q) * W).
Context (cfg : poller).

Lemma assert_trace_balance_ready expected addr (w w' : W) (b : bool) t :
  run respond (assert_trace_balance expected addr) w = (Ret b, w', t) ->
  truthy b = true ->
  t = [Obs (cli_balances Chainmain addr) (Ret expected)].
Proof.
  unfold assert_trace_balance. intros H Hb. run_inv.
  destruct (len _ >? 1); run_inv; [| done]. by subst.
Qed.

Lemma assert_trace_balance_pending expected addr (w w' : W) r t :
  run respond (assert_trace_balance expected addr) w = (r, w', t) ->
  r = Ret false \/ r = Raise TransientQueryError ->
  Forall (pending_poll (cli_balances Chainmain addr) (fun bal => len bal <= 1)) t.
Proof.
  unfold assert_trace_balance. intros H [-> | ->].
  - run_inv. destruct (len _ >? 1) eqn:Hlen; run_inv; [done |].
    cbn [app]. apply Forall_singleton. left. eexists. split; [done |]. lia.
  - run_raise_step; [run_raise_step; apply Forall_singleton; by right |].
    destruct (len _ >? 1); [| done]. by repeat run_raise_step.
Qed.

Lemma assert_balance_ready denom0 old amount amt addr (w w' : W) (b : bool) t :
  run respond (assert_balance denom0 old amount amt addr) w = (Ret b, w', t) ->
  truthy b = true ->
  t = [Obs (cli_balance Cronos addr denom0) (Ret (old - amt))].
Proof.
  unfold assert_balance. intros H Hb. run_inv.
  destruct (_ >? _); run_inv; [| done]. by subst.
Qed.

Lemma assert_balance_pending denom0 old amount amt addr (w w' : W) r t :
  run respond (assert_balance denom0 old amount amt addr) w = (r, w', t) ->
  r = Ret false \/ r = Raise TransientQueryError ->
  Forall (pending_poll (cli_balance Cronos addr denom0)
            (fun balance => balance <= old - amount)) t.
Proof.
  unfold assert_balance. intros H [-> | ->].
  - run_inv. destruct (_ >? _) eqn:Hgt; run_inv; [done |].
    cbn [app]. apply Forall_singleton. left. eexists. split; [done |]. lia.
  - run_raise_step; [run_raise_step; apply Forall_singleton; by right |].
    destruct (_ >? _); [| done]. by repeat run_raise_step.
Qed.

Lemma outbound_calls_app sender receiver rsp node polls rest :
  outbound_calls sender receiver rsp node polls ++ rest
  = Obs (cli_address Cronos "user1") (Ret sender)
    :: Obs (cli_address Chainmain "user1") (Ret receiver)
    :: Obs (cli_ibc_transfer Cronos sender receiver "1000basetcro" "channel-0" 1
              "1000basecro" (Some true)) (Ret rsp)
    :: Obs (cli_balance Chainmain receiver "basecro") (Ret 1000000000000000000000)
    :: Obs (cli_balance Cronos sender "basetcro") (Ret (30000000000000000000000 - 1000))
    :: Obs (node_rpc Chainmain 0) (Ret node)
    :: Obs (cli_ibc_denom_trace Cronos "transfer/channel-0/basetcro" node)
         (Ret (DenomTrace "transfer/channel-0" "basetcro"))
    :: polls
    ++ Obs (cli_balances Chainmain receiver)
         (Ret [ Coin "basecro" "1000000000000000000000";
                Coin (ibc_denom "channel-0" "basetcro") "1000" ])
    :: rest.
Proof. unfold outbound_calls. cbn [app]. by rewrite <- app_assoc. Qed.

Lemma return_leg_app sender receiver rsp polls settled rest :
  return_leg sender receiver rsp polls settled ++ rest
  = Obs (cli_ibc_transfer Chainmain receiver sender
           ("500" +:+ ibc_denom "channel-0" "basetcro") "channel-0" 1
           "100000000basecro" None) (Ret rsp)
    :: polls ++ Obs (cli_balance Cronos sender "basetcro") (Ret settled) :: rest.
Proof. unfold return_leg. cbn [app]. by rewrite <- app_assoc. Qed.

Lemma multi_transfer_calls_flat sender receiver rsp node polls
    rsp1 polls1 settled1 rsp2 polls2 settled2 :
  outbound_calls sender receiver rsp node polls
  ++ return_leg sender receiver rsp1 polls1 settled1
  ++ return_leg sender receiver rsp2 polls2 settled2
  = Obs (cli_address Cronos "user1") (Ret sender)
    :: Obs (cli_address Chainmain "user1") (Ret receiver)
    :: Obs (cli_ibc_transfer Cronos sender receiver "1000basetcro" "channel-0" 1
              "1000basecro" (Some true)) (Ret rsp)
    :: Obs (cli_balance Chainmain receiver "basecro") (Ret 1000000000000000000000)
    :: Obs (cli_balance Cronos sender "basetcro") (Ret (30000000000000000000000 - 1000))
    :: Obs (node_rpc Chainmain 0) (Ret node)
    :: Obs (cli_ibc_denom_trace Cronos "transfer/channel-0/basetcro" node)
         (Ret (DenomTrace "transfer/channel-0" "basetcro"))
    :: polls
    ++ Obs (cli_balances Chainmain receiver)
         (Ret [ Coin "basecro" "1000000000000000000000";
                Coin (ibc_denom "channel-0" "basetcro") "1000" ])
    :: Obs (cli_ibc_transfer Chainmain receiver sender
              ("500" +:+ ibc_denom "channel-0" "basetcro") "channel-0" 1
              "100000000basecro" None) (Ret rsp1)
    :: polls1
    ++ Obs (cli_balance Cronos sender "basetcro") (Ret settled1)
    :: Obs (cli_ibc_transfer Chainmain receiver sender
              ("500" +:+ ibc_denom "channel-0" "basetcro") "channel-0" 1
              "100000000basecro" None) (Ret rsp2)
    :: polls2
    ++ [Obs (cli_balance Cronos sender "basetcro") (Ret settled2)].
Proof.
  rewrite outbound_calls_app, return_leg_app.
  by rewrite <- (app_nil_r (return_leg _ _ _ polls2 _)), return_leg_app.
Qed.

Lemma trace_poll_pending expected addr (w w' : W) ts :
  idle_polls respond cfg (assert_trace_balance expected addr) w ts w' ->
  Forall (pending_poll (cli_balances Chainmain addr) (fun bal => len bal <= 1)) ts.
Proof.
  apply idle_polls_Forall.
  - intros w0 [] w1 t Hrun Ha; [done |].
    eapply assert_trace_balance_pending; [exact Hrun | by left].
  - intros w0 w1 t Hrun.
    eapply assert_trace_balance_pending; [exact Hrun | by right].
Qed.

Lemma balance_poll_pending denom0 old amount amt addr (w w' : W) ts :
  idle_polls respond cfg (assert_balance denom0 old amount amt addr) w ts w' ->
  Forall (pending_poll (cli_balance Cronos addr denom0)
            (fun balance => balance <= old - amount)) ts.
Proof.
  apply idle_polls_Forall.
  - intros w0 [] w1 t Hrun Ha; [done |].
    eapply assert_balance_pending; [exact Hrun | by left].
  - intros w0 w1 t Hrun.
    eapply assert_balance_pending; [exact Hrun | by right].
Qed.

(** Every call of a passing [ibc_multi_transfer], in order. *)
Lemma ibc_multi_transfer_calls (w w' : W) tr :
  run respond (ibc_multi_transfer cfg) w = (Ret tt, w', tr) ->
  exists sender receiver rsp node polls rsp1 polls1 rsp2 polls2,
    tr = outbound_calls sender receiver rsp node polls
         ++ return_leg sender receiver rsp1 polls1 (30000000000000000000000 - 500)
         ++ return_leg sender receiver rsp2 polls2 30000000000000000000000
    /\ rsp_code rsp = 0 /\ rsp_code rsp1 = 0 /\ rsp_code rsp2 = 0
    /\ Forall (pending_poll (cli_balances Chainmain receiver)
                 (fun bal => len bal <= 1)) polls
    /\ Forall (pending_poll (cli_balance Cronos sender "basetcro")
                 (fun balance => balance <= 30000000000000000000000 - 1000)) polls1
    /\ Forall (pending_poll (cli_balance Cronos sender "basetcro")
                 (fun balance => balance <= 30000000000000000000000 - 500)) polls2.
Proof.
  intros H. unfold ibc_multi_transfer in H.
  change (map (fun i => "user" +:+ str_int i) (range 1 2)) with ["user1"] in H.
  change (range 0 2) with [0; 1] in H.
  cbn [comprehension enumerate length seq combine for_fold] in H.
  run_inv.
  repeat match goal with
  | H : context [index [?a] 0%nat ≫= ?f] |- _ =>
    change (index [a] 0%nat ≫= f) with (f a) in H; cbv beta in H
  end.
  repeat match goal with
  | H : run _ (wait_for_fn _ _ _ _) _ = (Ret _, _, _) |- _ =>
    apply run_wait_for_fn_ret in H as (? & ? & ? & ? & ? & H & ? & ->)
  end.
  repeat match goal with
  | H : run _ (assert_trace_balance _ _) _ = (Ret _, _, _) |- _ =>
    apply assert_trace_balance_ready in H as ->; [| done]
  | H : run _ (assert_balance _ _ _ _ _) _ = (Ret _, _, _) |- _ =>
    apply assert_balance_ready in H as ->; [| done]
  | H : idle_polls _ _ (assert_trace_balance _ _) _ _ _ |- _ =>
    apply trace_poll_pending in H
  | H : idle_polls _ _ (assert_balance _ _ _ _ _) _ _ _ |- _ =>
    apply balance_poll_pending in H
  end.
  subst. do 9 eexists. split.
  - etrans; [rewrite <- ?app_assoc, ?app_nil_r; cbn [app]; reflexivity |].
    rewrite multi_transfer_calls_flat. reflexivity.
  - repeat match goal with |- _ /\ _ => split end; assumption.
Qed.

(** C4. In a passing [ibc_multi_transfer], right after the transfer of
    1000 basetcro over channel-0 the sender's basetcro balance reads
    30000000000000000000000 - 1000, and the wait that follows ends on the
    receiver's balance list being exactly its native basecro entry and the
    entry of amount "1000" under the derived denomination
    [ibc_denom "channel-0" "basetcro"]; every earlier poll of that wait saw
    at most one entry. *)
Theorem plain_transfer_settles (w w' : W) tr :
  run respond (ibc_multi_transfer cfg) w = (Ret tt, w', tr) ->
  exists sender receiver rsp node polls rest,
    tr = outbound_calls sender receiver rsp node polls ++ rest
    /\ rsp_code rsp = 0
    /\ Forall (pending_poll (cli_balances Chainmain receiver)
                 (fun bal => len bal <= 1)) polls.
Proof.
  intros (sender & receiver & rsp & node & polls & rsp1 & polls1 & rsp2 & polls2
          & -> & Hrsp & _ & _ & Hpolls & _)%ibc_multi_transfer_calls.
  by exists sender, receiver, rsp, node, polls, (return_leg sender receiver rsp1 polls1
    (30000000000000000000000 - 500)
    ++ return_leg sender receiver rsp2 polls2 30000000000000000000000).
Qed.

(** C5. In a passing [ibc_multi_transfer], after the outbound transfer the
    return is made by exactly two transfers of 500 units of the derived
    denomination.  The wait after the first ends on the sender's balance
    30000000000000000000000 - 500 and the wait after the second on
    30000000000000000000000; every balance polled before that is at most
    30000000000000000000000 - 1000 in the first leg and at most
    30000000000000000000000 - 500 in the second, so no poll exceeds the
    balance its leg settles on. *)
Theorem round_trip_converges (w w' : W) tr :
  run respond (ibc_multi_transfer cfg) w = (Ret tt, w', tr) ->
  exists sender receiver rsp node polls rsp1 polls1 rsp2 polls2,
    tr = outbound_calls sender receiver rsp node polls
         ++ return_leg sender receiver rsp1 polls1 (30000000000000000000000 - 500)
         ++ return_leg sender receiver rsp2 polls2 30000000000000000000000
    /\ rsp_code rsp1 = 0 /\ rsp_code rsp2 = 0
    /\ Forall (pending_poll (cli_balance Cronos sender "basetcro")
                 (fun balance => balance <= 30000000000000000000000 - 1000)) polls1
    /\ Forall (pending_poll (cli_balance Cronos sender "basetcro")
                 (fun balance => balance <= 30000000000000000000000 - 500)) polls2.
Proof.
  intros (sender & receiver & rsp & node & polls & rsp1 & polls1 & rsp2 & polls2
          & -> & _ & Hrsp1 & Hrsp2 & _ & Hpolls1 & Hpolls2)%ibc_multi_transfer_calls.
  by exists sender, receiver, rsp, node, polls, rsp1, polls1, rsp2, polls2.
Qed.
End MultiTransfer.

Lemma plain_transfer_settles_witness :
  exists sender receiver rsp node polls rest,
    (run (scripted settling_ledgers) (ibc_multi_transfer one_second_polls) 0%nat).2
    = outbound_calls sender receiver rsp node polls ++ rest
    /\ rsp_code rsp = 0
    /\ Forall (pending_poll (cli_balances Chainmain receiver)
                 (fun bal => len bal <= 1)) polls.
Proof.
  apply (plain_transfer_settles (scripted settling_ledgers) one_second_polls
           0%nat 15%nat).
  vm_compute. reflexivity.
Defined.

Lemma round_trip_converges_witness :
  exists sender receiver rsp node polls rsp1 polls1 rsp2 polls2,
    (run (scripted settling_ledgers) (ibc_multi_transfer one_second_polls) 0%nat).2
    = outbound_calls sender receiver rsp node polls
      ++ return_leg sender receiver rsp1 polls1 (30000000000000000000000 - 500)
      ++ return_leg sender receiver rsp2 polls2 30000000000000000000000
    /\ rsp_code rsp1 = 0 /\ rsp_code rsp2 = 0
    /\ Forall (pending_poll (cli_balance Cronos sender "basetcro")
                 (fun balance => balance <= 30000000000000000000000 - 1000)) polls1
    /\ Forall (pending_poll (cli_balance Cronos sender "basetcro")
                 (fun balance => balance <= 30000000000000000000000 - 500)) polls2.
Proof.
  apply (round_trip_converges (scripted settling_ledgers) one_second_polls
           0%nat 15%nat).
  vm_compute. reflexivity.
Defined.



Section Incentivized.
Context {W : Type} (respond : forall q : query, W -> result (answer q) * W).
Context (ext : externals) (cfg : poller).

Lemma check_fee_ready relayer relayer_caller fee_denom old_amt_fee old_amt_fee_caller
    (w w' : W) (b : bool) t :
  run respond (check_fee relayer relayer_caller fee_denom old_amt_fee old_amt_fee_caller) w
  = (Ret b, w', t) ->
  truthy b = true ->
  exists amount amount_caller,
    t = [ Obs (cli_balance Cronos relayer fee_denom) (Ret amount);
          Obs (cli_balance Cronos relayer_caller fee_denom) (Ret amount_caller) ]
    /\ ((0 < amount_caller
         /\ amount_caller = old_amt_fee_caller + 10
         /\ amount = old_amt_fee + 10)
        \/ (amount_caller <= 0 /\ amount = old_amt_fee + 20)).
Proof.
  unfold check_fee. intros H Hb. run_inv.
  destruct (_ >? old_amt_fee) eqn:Hgt; run_inv; [| done].
  destruct (_ >? 0) eqn:Hcaller; run_inv.
  - do 2 eexists. split; [reflexivity |]. left. lia.
  - do 2 eexists. split; [reflexivity |]. right. lia.
Qed.

Lemma check_fee_pending relayer relayer_caller fee_denom old_amt_fee old_amt_fee_caller
    (w w' : W) r t :
  run respond (check_fee relayer relayer_caller fee_denom old_amt_fee old_amt_fee_caller) w
  = (r, w', t) ->
  r = Ret false \/ r = Raise TransientQueryError ->
  Forall (fun o => exists r0,
            o = Obs (cli_balance Cronos relayer fee_denom) r0
            \/ o = Obs (cli_balance Cronos relayer_caller fee_denom) r0) t.
Proof.
  unfold check_fee. intros H [-> | ->].
  - run_inv. destruct (_ >? old_amt_fee); run_inv; [done |].
    apply Forall_singleton. eexists. by left.
  - run_raise_step; [run_raise_step; apply Forall_singleton; eexists; by left |].
    destruct (_ >? old_amt_fee); [| run_raise_step].
    run_inv. run_raise_step.
    + run_raise_step. repeat constructor; eexists; [by left | by right].
    + run_raise_step; [| run_raise_step].
      destruct (_ >? 0); repeat run_raise_step.
Qed.

Lemma fee_poll_pending relayer relayer_caller fee_denom old_amt_fee old_amt_fee_caller
    (w w' : W) ts :
  idle_polls respond cfg
    (check_fee relayer relayer_caller fee_denom old_amt_fee old_amt_fee_caller) w ts w' ->
  Forall (fun o => exists r0,
            o = Obs (cli_balance Cronos relayer fee_denom) r0
            \/ o = Obs (cli_balance Cronos relayer_caller fee_denom) r0) ts.
Proof.
  apply idle_polls_Forall.
  - intros w0 [] w1 t Hrun Ha; [done |].
    eapply check_fee_pending; [exact Hrun | by left].
  - intros w0 w1 t Hrun.
    eapply check_fee_pending; [exact Hrun | by right].
Qed.

Lemma fee_calls_flat receiver sender relayer old_amt_fee old_amt_fee_caller
    old_amt_sender_fee rsp rsp_tx packet_seq rsp_fee polls amount amount_caller rest :
  fee_calls ext receiver sender relayer old_amt_fee old_amt_fee_caller
    old_amt_sender_fee rsp rsp_tx packet_seq rsp_fee polls amount amount_caller ++ rest
  = Obs (cli_address Chainmain "signer2") (Ret receiver)
    :: Obs (cli_address Cronos "signer2") (Ret sender)
    :: Obs (cli_address Cronos "signer1") (Ret relayer)
    :: Obs (cli_balance Cronos relayer "ibcfee") (Ret old_amt_fee)
    :: Obs (cli_balance Cronos (eth_to_bech32 ext RELAYER_CALLER) "ibcfee")
         (Ret old_amt_fee_caller)
    :: Obs (cli_balance Cronos sender "ibcfee") (Ret old_amt_sender_fee)
    :: Obs (cli_balance Cronos sender "basetcro") (Ret 30000000000100000000000)
    :: Obs (cli_balance Chainmain receiver "basecro") (Ret 1000000000000000000000)
    :: Obs (cli_ibc_transfer Cronos sender receiver "1000basetcro" "channel-0" 1
              "0basecro" None) (Ret rsp)
    :: Obs (cli_event_query_tx_for Cronos (rsp_txhash rsp)) (Ret rsp_tx)
    :: Obs (cli_pay_packet_fee Cronos "transfer" "channel-0" packet_seq
              "10ibcfee" "10ibcfee" "10ibcfee" sender) (Ret rsp_fee)
    :: Obs (cli_balance Cronos sender "ibcfee") (Ret (old_amt_sender_fee - 20))
    :: polls
    ++ Obs (cli_balance Cronos relayer "ibcfee") (Ret amount)
    :: Obs (cli_balance Cronos (eth_to_bech32 ext RELAYER_CALLER) "ibcfee")
         (Ret amount_caller)
    :: Obs (cli_balances Cronos sender)
         (Ret [ Coin "basetcro" (str_int (30000000000100000000000 - 1000));
                Coin "ibcfee" (str_int (old_amt_sender_fee - 20)) ])
    :: rest.
Proof. unfold fee_calls. cbn [app]. by rewrite <- app_assoc. Qed.

(** Every call of a passing [ibc_incentivized_transfer] up to the check of
    the sender's balances, and what the assertions on the way establish. *)
Lemma ibc_incentivized_transfer_calls (w w' : W) (out : Z * Z) tr :
  run respond (ibc_incentivized_transfer ext cfg) w = (Ret out, w', tr) ->
  exists receiver sender relayer old_amt_fee old_amt_fee_caller old_amt_sender_fee
         rsp rsp_tx packet_seq rsp_fee polls amount amount_caller rest,
    tr = fee_calls ext receiver sender relayer old_amt_fee old_amt_fee_caller
           old_amt_sender_fee rsp rsp_tx packet_seq rsp_fee polls amount amount_caller
         ++ rest
    /\ out = (1000, packet_seq)
    /\ rsp_code rsp_fee = 0
    /\ Forall (fee_balance_poll relayer (eth_to_bech32 ext RELAYER_CALLER)) polls
    /\ ((0 < amount_caller
         /\ amount_caller = old_amt_fee_caller + 10
         /\ amount = old_amt_fee + 10)
        \/ (amount_caller <= 0 /\ amount = old_amt_fee + 20)).
Proof.
  intros H. unfold ibc_incentivized_transfer in H.
  run_inv.
  match goal with
  | H : run _ (wait_for_fn _ _ (check_fee _ _ _ _ _) _) _ = (Ret _, _, _) |- _ =>
    apply run_wait_for_fn_ret in H as (? & ? & ? & ? & Hidle & H & ? & ->);
    apply check_fee_ready in H as (amount & amount_caller & -> & Hsplit); [| done];
    apply fee_poll_pending in Hidle
  end.
  subst. do 14 eexists. split.
  - etrans; [rewrite <- ?app_assoc, ?app_nil_r; cbn [app]; reflexivity |].
    rewrite fee_calls_flat. reflexivity.
  - repeat match goal with |- _ /\ _ => split end; try assumption; reflexivity.
Qed.

(** C2. In a passing [ibc_incentivized_transfer], with the three fees paid
    as "10ibcfee" each, the sender's ibcfee balance read back after
    [pay_packet_fee] is the earlier one minus 20 (not minus 30); the wait
    for the reward ends with the relayer accounts 20 up in total: the
    relayer and the caller account 10 each when the caller's fee balance is
    positive, the relayer alone 20 otherwise; and the sender's balance
    list then shows the fee balance still 20 down. *)
Theorem incentivized_fee_accounting (w w' : W) (out : Z * Z) tr :
  run respond (ibc_incentivized_transfer ext cfg) w = (Ret out, w', tr) ->
  exists receiver sender relayer old_amt_fee old_amt_fee_caller old_amt_sender_fee
         rsp rsp_tx packet_seq rsp_fee polls amount amount_caller rest,
    tr = fee_calls ext receiver sender relayer old_amt_fee old_amt_fee_caller
           old_amt_sender_fee rsp rsp_tx packet_seq rsp_fee polls amount amount_caller
         ++ rest
    /\ old_amt_sender_fee - 20 <> old_amt_sender_fee - 30
    /\ ((0 < amount_caller
         /\ amount - old_amt_fee = 10
         /\ amount_caller - old_amt_fee_caller = 10)
        \/ (amount_caller <= 0 /\ amount - old_amt_fee = 20)).
Proof.
  intros (receiver & sender & relayer & old_amt_fee & old_amt_fee_caller
          & old_amt_sender_fee & rsp & rsp_tx & packet_seq & rsp_fee & polls
          & amount & amount_caller & rest & -> & _ & _ & _ & Hsplit)
         %ibc_incentivized_transfer_calls.
  exists receiver, sender, relayer, old_amt_fee, old_amt_fee_caller,
    old_amt_sender_fee, rsp, rsp_tx, packet_seq, rsp_fee, polls, amount,
    amount_caller, rest.
  split; [done |]. split; lia.
Qed.
End Incentivized.

Lemma incentivized_fee_accounting_witness :
  exists receiver sender relayer old_amt_fee old_amt_fee_caller old_amt_sender_fee
         rsp rsp_tx packet_seq rsp_fee polls amount amount_caller rest,
    (run (scripted rewarding_ledgers)
       (ibc_incentivized_transfer plain_externals one_second_polls) 0%nat).2
    = fee_calls plain_externals receiver sender relayer old_amt_fee old_amt_fee_caller
        old_amt_sender_fee rsp rsp_tx packet_seq rsp_fee polls amount amount_caller
      ++ rest
    /\ old_amt_sender_fee - 20 <> old_amt_sender_fee - 30
    /\ ((0 < amount_caller
         /\ amount - old_amt_fee = 10
         /\ amount_caller - old_amt_fee_caller = 10)
        \/ (amount_caller <= 0 /\ amount - old_amt_fee = 20)).
Proof.
  apply (incentivized_fee_accounting (scripted rewarding_ledgers) plain_externals
           one_second_polls 0%nat 24%nat (1000, 7)).
  vm_compute. reflexivity.
Defined.

(** * Further properties of the harness *)

(** ** Denomination derivation *)

Lemma string_app_assoc (s t u : string) : (s +:+ t) +:+ u = s +:+ t +:+ u.
Proof. induction s as [| a s IH]; [reflexivity |]. exact (f_equal (String a) IH). Qed.

Lemma string_app_length (s t : string) :
  String.length (s +:+ t) = (String.length s + String.length t)%nat.
Proof. induction s as [| a s IH]; [reflexivity |]. exact (f_equal S IH). Qed.

(** X1. The derived denomination depends on the joined path only: moving a
    ["/"]-separated segment from the end of the channel to the front of the
    denom gives a different pair with the same derived denomination. *)
Theorem ibc_denom_path_ambiguity (channel segment denom : string) :
  ibc_denom (channel +:+ "/" +:+ segment) denom
  = ibc_denom channel (segment +:+ "/" +:+ denom)
  /\ channel +:+ "/" +:+ segment <> channel.
Proof.
  split.
  - unfold ibc_denom. by rewrite !string_app_assoc.
  - intros Heq. apply (f_equal String.length) in Heq.
    rewrite !string_app_length in Heq. cbn in Heq. lia.
Qed.

(** ** find_duplicate and its caller *)

Lemma find_duplicate_loop_amount_key res value0 attributes :
  find_duplicate_loop "amount" res value0 attributes = Ret None.
Proof.
  revert value0. induction attributes as [| a rest IH]; intros value0; [reflexivity |].
  cbn [find_duplicate_loop].
  destruct (decide (attr_key a = "amount")) as [Hk | Hk]; [apply IH |].
  destruct (decide (attr_key a = "amount")) as [Hk' | _]; [done | apply IH].
Qed.

(** X2. When the first attribute's key is ["amount"], every ["amount"]
    attribute is taken as a new group head and none as a companion:
    [find_duplicate] returns [None] whatever follows, repeats included. *)
Theorem find_duplicate_amount_first (v : string) (rest : list attribute) :
  find_duplicate (Attribute "amount" v :: rest) = Ret None.
Proof. apply find_duplicate_loop_amount_key. Qed.

Lemma group_pairs_filter key cur (attributes : list attribute) :
  group_pairs key cur
    (filter (fun a => attr_key a = key \/ attr_key a = "amount") attributes)
  = group_pairs key cur attributes.
Proof.
  revert cur. induction attributes as [| a rest IH]; intros cur; [reflexivity |].
  destruct (decide (attr_key a = key \/ attr_key a = "amount")) as [Hin | Hout].
  - rewrite filter_cons_True by done. cbn [group_pairs].
    destruct (decide (attr_key a = key)); [apply IH |].
    destruct (decide (attr_key a = "amount")); [by rewrite IH | apply IH].
  - rewrite filter_cons_False by done. cbn [group_pairs].
    destruct (decide (attr_key a = key)); [tauto |].
    destruct (decide (attr_key a = "amount")); [tauto | apply IH].
Qed.

(** X3. Attributes whose key is neither the first attribute's key nor
    ["amount"] play no part: dropping them from the sequence leaves the
    result of [find_duplicate] unchanged. *)
Theorem find_duplicate_ignores_other_keys (first : attribute) (rest : list attribute) :
  find_duplicate
    (first :: filter (fun a => attr_key a = attr_key first \/ attr_key a = "amount") rest)
  = find_duplicate (first :: rest).
Proof.
  rewrite !find_duplicate_first_repeat. unfold pairs_of. cbn [group_pairs].
  destruct (decide (attr_key first = attr_key first)); [| done].
  by rewrite group_pairs_filter.
Qed.

Lemma render_truthy (p : string * string) : truthy (render p) = true.
Proof.
  unfold truthy, truthy_str, render. rewrite bool_decide_eq_false_2; [done |].
  intros Heq. apply (f_equal String.length) in Heq.
  rewrite !string_app_length in Heq. cbn in Heq. lia.
Qed.

(** Position of the first event that is not clean, if any. *)
Lemma check_duplicate_recv_events_cases (events : list event) :
  (Forall clean_event events /\ check_duplicate_recv_events events = Ret tt)
  \/ (exists pre ev post,
        events = pre ++ ev :: post
        /\ Forall clean_event pre
        /\ ((ev_attributes ev = []
             /\ check_duplicate_recv_events events = Raise IndexError)
            \/ (ev_attributes ev <> []
                /\ ~ NoDup (map render (pairs_of (ev_attributes ev)))
                /\ check_duplicate_recv_events events = Raise AssertionError))).
Proof.
  induction events as [| ev rest IH]; [left; by split |].
  cbn [check_duplicate_recv_events].
  destruct (ev_attributes ev) as [| a attrs] eqn:Hattrs.
  { right. exists [], ev, rest. split; [done |]. split; [constructor |]. by left. }
  rewrite find_duplicate_first_repeat.
  destruct (first_repeat _) as [s |] eqn:Hrep.
  - right. exists [], ev, rest. split; [done |]. split; [constructor |].
    right. rewrite Hattrs. split; [done |].
    assert (Hdup : ~ NoDup (map render (pairs_of (a :: attrs)))).
    { rewrite <- first_repeat_None. by rewrite Hrep. }
    split; [done |].
    apply first_repeat_Some in Hrep as (l1 & l2 & Heq & _ & Hin).
    assert (Hs : s ∈ map render (pairs_of (a :: attrs))).
    { rewrite Heq. apply elem_of_app. right. by left. }
    apply list_elem_of_fmap in Hs as (p & -> & _).
    cbn [truthy truthy_optional]. by rewrite render_truthy.
  - apply first_repeat_None in Hrep. cbn.
    assert (Hclean : clean_event ev) by (unfold clean_event; by rewrite Hattrs).
    destruct IH as [[Hall Hret] | (pre & ev' & post & -> & Hpre & Hcase)].
    + left. split; [by constructor | done].
    + right. exists (ev :: pre), ev', post. split; [done |].
      split; [by constructor | done].
Qed.

(** X4. The duplicate check that closes [ibc_transfer_with_hermes] passes
    exactly when every event is clean.  Otherwise it stops at the first
    event that is not: with [IndexError] when that event has no attributes,
    and with the assertion failure when a rendered pair recurs; a reported
    pair is never an empty (falsy) string, so [assert not dup] cannot let it
    through. *)
Theorem check_duplicate_recv_events_spec (events : list event) :
  (Forall clean_event events /\ check_duplicate_recv_events events = Ret tt)
  \/ (exists pre ev post,
        events = pre ++ ev :: post
        /\ Forall clean_event pre
        /\ ~ clean_event ev
        /\ check_duplicate_recv_events events
           = Raise (if decide (ev_attributes ev = []) then IndexError
                    else AssertionError)).
Proof.
  destruct (check_duplicate_recv_events_cases events)
    as [Hok | (pre & ev & post & Heq & Hpre & Hcase)]; [by left |].
  right. exists pre, ev, post. split; [done |]. split; [done |].
  destruct Hcase as [[Hnil ->] | (Hne & Hdup & ->)].
  - split; [by intros [? _] |]. by rewrite decide_True.
  - split; [by intros [_ ?] |]. by rewrite decide_False.
Qed.

(** ** assert_duplicate on a block without transactions *)

(** X5. When the block has no transaction results, [assert_duplicate]
    raises [IndexError] from [res["txs_results"][0]] right after the one GET
    request; nothing is compared. *)
Theorem assert_duplicate_no_transactions {W : Type}
    (respond : forall q : query, W -> result (answer q) * W)
    (ext : externals) (base_port height : Z) (res : block_result) (w w' : W) :
  respond
    (requests_get ("http://127.0.0.1:" +:+ str_int (rpc_port ext base_port)
                   +:+ "/block_results?height=" +:+ str_int height)) w
  = (Ret res, w') ->
  txs_results res = [] ->
  run respond (assert_duplicate ext base_port height) w
  = (Raise IndexError, w',
     [Obs (requests_get ("http://127.0.0.1:" +:+ str_int (rpc_port ext base_port)
                         +:+ "/block_results?height=" +:+ str_int height))
        (Ret res)]).
Proof.
  intros Hq Hres. unfold assert_duplicate.
  rewrite run_bind. cbn [call run]. rewrite Hq.
  rewrite run_bind. unfold index. by rewrite Hres.
Qed.

Lemma assert_duplicate_no_transactions_witness :
  run (scripted empty_block) (assert_duplicate plain_externals 26650 12) 0%nat
  = (Raise IndexError, 1%nat,
     [Obs (requests_get "http://127.0.0.1:26657/block_results?height=12")
        (Ret (BlockResult []))]).
Proof.
  apply (assert_duplicate_no_transactions (scripted empty_block) plain_externals
           26650 12 (BlockResult []) 0%nat 1%nat); reflexivity.
Defined.

(** ** The timeout-expecting waiters never time out *)

(** X6. With a timeout passed, [TimeoutError] never leaves
    [wait_for_check_tx] or [wait_for_status_change], whatever the ledger
    answers: the only [TimeoutError] that can arise is caught. *)
Theorem timeout_never_escapes {W : Type}
    (respond : forall q : query, W -> result (answer q) * W)
    (cfg : poller) (t : Z) (w : W) :
  (forall (cli : chain) (adr : string) (num_txs : Z),
     (run respond (wait_for_check_tx cfg cli adr num_txs (Some t)) w).1.1
     <> Raise TimeoutError)
  /\ (forall (tcontract id : string) (seq : Z),
        (run respond (wait_for_status_change cfg tcontract id seq (Some t)) w).1.1
        <> Raise TimeoutError).
Proof.
  split; intros.
  - rewrite run_wait_for_check_tx.
    destruct (run respond _ w) as [[[[] | e] w1] t1]; [done |]. by destruct e.
  - rewrite run_wait_for_status_change.
    destruct (run respond _ w) as [[[[] | e] w1] t1]; [done |]. by destruct e.
Qed.

(** ** check_fee and a caller account funded beforehand *)

(** X7. [check_fee] takes the caller to take part as soon as the caller's
    fee balance is positive.  So when the caller account held fee tokens
    before and the relayer alone is paid the 20, the unchanged caller
    balance fails the first assertion: [check_fee] raises instead of
    returning [True]. *)
Theorem check_fee_prefunded_caller {W : Type}
    (respond : forall q : query, W -> result (answer q) * W)
    (relayer relayer_caller fee_denom : string)
    (old_amt_fee old_amt_fee_caller : Z) (w w1 w2 : W) :
  0 < old_amt_fee_caller ->
  respond (cli_balance Cronos relayer fee_denom) w = (Ret (old_amt_fee + 20), w1) ->
  respond (cli_balance Cronos relayer_caller fee_denom) w1
  = (Ret old_amt_fee_caller, w2) ->
  run respond (check_fee relayer relayer_caller fee_denom old_amt_fee old_amt_fee_caller) w
  = (Raise AssertionError, w2,
     [ Obs (cli_balance Cronos relayer fee_denom) (Ret (old_amt_fee + 20));
       Obs (cli_balance Cronos relayer_caller fee_denom) (Ret old_amt_fee_caller) ]).
Proof.
  intros Hpos Hrelayer Hcaller. unfold check_fee.
  rewrite run_bind. cbn [call run]. rewrite Hrelayer.
  replace (old_amt_fee + 20 >? old_amt_fee) with true by lia.
  rewrite run_bind. cbn [call run]. rewrite Hcaller.
  replace (old_amt_fee_caller >? 0) with true by lia.
  replace (old_amt_fee_caller =? old_amt_fee_caller + 10) with false by lia.
  reflexivity.
Qed.

Lemma check_fee_prefunded_caller_witness :
  run (scripted relayer_only_payout)
    (check_fee "crc1relayer" "crc1caller" "ibcfee" 100 5) 0%nat
  = (Raise AssertionError, 2%nat,
     [ Obs (cli_balance Cronos "crc1relayer" "ibcfee") (Ret (100 + 20));
       Obs (cli_balance Cronos "crc1caller" "ibcfee") (Ret 5) ]).
Proof.
  apply (check_fee_prefunded_caller (scripted relayer_only_payout)
           "crc1relayer" "crc1caller" "ibcfee" 100 5 0%nat 1%nat 2%nat);
    [lia | reflexivity | reflexivity].
Defined.

(** ** get_next_channel *)

Lemma ltb_true_le (a b : string) : String.ltb a b = true -> String.le a b.
Proof.
  unfold String.ltb, String.le, String.leb.
  destruct (String.compare a b); cbn; done.
Qed.

Lemma ltb_false_le (a b : string) : String.ltb a b = false -> String.le b a.
Proof.
  unfold String.ltb, String.le, String.leb. rewrite (String.compare_antisym a b).
  destruct (String.compare b a); cbn; done.
Qed.

Lemma max_from_upper_bound (largest : string) (items : list string) :
  (max_from largest items = largest \/ max_from largest items ∈ items)
  /\ String.le largest (max_from largest items)
  /\ (forall x, x ∈ items -> String.le x (max_from largest items)).
Proof.
  revert largest. induction items as [| y rest IH]; intros largest.
  - split; [by left |]. split; [reflexivity |]. intros x Hx. by apply elem_of_nil in Hx.
  - cbn [max_from]. destruct (String.ltb largest y) eqn:Hlt.
    + destruct (IH y) as (Hin & Hle & Hall). split; [| split].
      * right. destruct Hin as [-> | Hin]; [by left | by right].
      * etrans; [by apply ltb_true_le | done].
      * intros x [-> | Hx]%elem_of_cons; [done | by apply Hall].
    + destruct (IH largest) as (Hin & Hle & Hall). split; [| split].
      * destruct Hin as [-> | Hin]; [by left | right; by right].
      * done.
      * intros x [-> | Hx]%elem_of_cons; [| by apply Hall].
        etrans; [by apply ltb_false_le | done].
Qed.

Lemma py_max_greatest (items : list string) (m : string) :
  m ∈ items -> (forall x, x ∈ items -> String.le x m) -> py_max items = Ret m.
Proof.
  destruct items as [| y rest]; [by intros ?%elem_of_nil |].
  intros Hm Hall. cbn [py_max]. f_equal.
  destruct (max_from_upper_bound y rest) as (Hin & Hle & Hbound).
  apply (anti_symm String.le).
  - apply Hall. destruct Hin as [-> | Hin]; [by left | by right].
  - apply elem_of_cons in Hm as [-> | Hm]; [done | by apply Hbound].
Qed.

(** X8. [get_next_channel] returns ["channel-0"] for a connection without
    channels, without parsing anything.  Otherwise it takes the channel id
    that is greatest in string order (not in numeric order), strips
    ["channel-"], parses the rest with [int] and returns ["channel-"]
    followed by the successor; a failure of [int] is passed on. *)
Theorem get_next_channel_spec {W : Type}
    (respond : forall q : query, W -> result (answer q) * W)
    (ext : externals) (cli : chain) (connid : string)
    (channels : list channel) (w w' : W) :
  respond (cli_ibc_query_channels cli connid) w = (Ret channels, w') ->
  exists r,
    run respond (get_next_channel ext cli connid) w
    = (r, w', [Obs (cli_ibc_query_channels cli connid) (Ret channels)])
    /\ ((channels = [] /\ r = Ret "channel-0")
        \/ (exists m,
              m ∈ map channel_id channels
              /\ (forall x, x ∈ map channel_id channels -> String.le x m)
              /\ r = match py_int ext (removeprefix "channel-" m) with
                     | Ret n => Ret ("channel-" +:+ str_int (n + 1))
                     | Raise e => Raise e
                     end)).
Proof.
  intros Hq. unfold get_next_channel.
  rewrite run_bind. cbn [call run]. rewrite Hq.
  destruct channels as [| ch rest].
  - eexists. split; [reflexivity |]. by left.
  - replace (len (ch :: rest) >? 0) with true
      by (symmetry; apply Z.gtb_gt; unfold len; cbn [length]; lia).
    cbn [map py_max].
    destruct (max_from_upper_bound (channel_id ch) (map channel_id rest))
      as (Hin & Hle & Hbound).
    set (m := max_from (channel_id ch) (map channel_id rest)) in *.
    exists (match py_int ext (removeprefix "channel-" m) with
            | Ret n => Ret ("channel-" +:+ str_int (n + 1))
            | Raise e => Raise e
            end).
    split.
    + cbn. by destruct (py_int ext (removeprefix "channel-" m)).
    + right. exists m. split; [| split; [| done]].
      * destruct Hin as [-> | Hin]; [by left | by right].
      * intros x [-> | Hx]%elem_of_cons; [done | by apply Hbound].
Qed.

(** With ten or more channels the id in hand is one that exists already:
    ["channel-9"] is greater than ["channel-10"] in string order. *)
Lemma get_next_channel_spec_witness :
  run (scripted eleven_channels_open)
    (get_next_channel decimal_externals Cronos "connection-0") 0%nat
  = (Ret "channel-10", 1%nat,
     [Obs (cli_ibc_query_channels Cronos "connection-0") (Ret eleven_channels)])
  /\ "channel-10" ∈ map channel_id eleven_channels.
Proof.
  destruct (get_next_channel_spec (scripted eleven_channels_open) decimal_externals
              Cronos "connection-0" eleven_channels 0%nat 1%nat eq_refl)
    as (r & Hrun & _).
  split.
  - rewrite Hrun. f_equal. f_equal. revert Hrun. vm_compute. congruence.
  - apply (bool_decide_unpack _). by vm_compute.
Defined.

(** ** assert_channel_open_init *)

Lemma next_filter_first {A} (P : A -> Prop) `{forall x, Decision (P x)} (l : list A) :
  (Forall (fun x => ~ P x) l /\ next (filter P l) = None)
  \/ (exists pre x post,
        l = pre ++ x :: post /\ Forall (fun y => ~ P y) pre /\ P x
        /\ next (filter P l) = Some x).
Proof.
  induction l as [| y rest IH]; [left; by split |].
  destruct (decide (P y)) as [Hy | Hy].
  - right. exists [], y, rest. repeat split; [constructor | done |].
    by rewrite filter_cons_True.
  - rewrite filter_cons_False by done.
    destruct IH as [[Hall Hnone] | (pre & x & post & -> & Hpre & Hx & Hsome)].
    + left. split; [by constructor | done].
    + right. exists (y :: pre), x, post. repeat split; [by constructor | done | done].
Qed.

(** X9. [assert_channel_open_init] fails its assertion on a rejected
    response before it looks at the events.  On an accepted response it
    goes by the first ["channel_open_init"] event alone: it returns the
    values of that event's first two attributes, raises [IndexError] when
    that event has fewer than two attributes (later events are not tried),
    and lets the [StopIteration] of [next] escape when there is no such
    event. *)
Theorem assert_channel_open_init_spec (rsp : tx_response) :
  (rsp_code rsp <> 0 /\ assert_channel_open_init rsp = Raised AssertionError)
  \/ (rsp_code rsp = 0
      /\ Forall (fun evt => ev_type evt <> "channel_open_init") (rsp_events rsp)
      /\ assert_channel_open_init rsp = StopIteration)
  \/ (exists pre evt post,
        rsp_code rsp = 0
        /\ rsp_events rsp = pre ++ evt :: post
        /\ Forall (fun e => ev_type e <> "channel_open_init") pre
        /\ ev_type evt = "channel_open_init"
        /\ assert_channel_open_init rsp
           = match ev_attributes evt with
             | a0 :: a1 :: _ => Returned (attr_value a0, attr_value a1)
             | _ => Raised IndexError
             end).
Proof.
  unfold assert_channel_open_init.
  destruct (rsp_code rsp =? 0) eqn:Hcode; cbn [negb].
  2: { left. split; [lia | done]. }
  apply Z.eqb_eq in Hcode. right.
  destruct (next_filter_first (fun evt => ev_type evt = "channel_open_init")
              (rsp_events rsp))
    as [[Hall ->] | (pre & evt & post & Heq & Hpre & Hevt & ->)].
  - left. by repeat split.
  - right. exists pre, evt, post. repeat split; try done.
    unfold first_two_values. by destruct (ev_attributes evt) as [| a0 [| a1 ?]].
Qed.

(** ** The way back in ibc_incentivized_transfer *)

Section WayBack.
Context {W : Type} (respond : forall q : query, W -> result (answer q) * W).
Context (ext : externals) (cfg : poller).

Lemma check_balance_change_ready sender base_denom old amount (w w' : W) (b : bool) t :
  run respond (check_balance_change sender base_denom old amount) w = (Ret b, w', t) ->
  truthy b = true ->
  exists changed,
    t = [Obs (cli_balance Cronos sender base_denom) (Ret changed)]
    /\ changed <> old - amount.
Proof.
  unfold check_balance_change. intros H Hb. run_inv.
  eexists. split; [reflexivity |].
  unfold truthy, truthy_bool in Hb. apply negb_true_iff in Hb. lia.
Qed.

Lemma check_balance_change_pending sender base_denom old amount (w w' : W) r t :
  run respond (check_balance_change sender base_denom old amount) w = (r, w', t) ->
  r = Ret false \/ r = Raise TransientQueryError ->
  Forall (pending_poll (cli_balance Cronos sender base_denom)
            (fun balance => balance = old - amount)) t.
Proof.
  unfold check_balance_change. intros H [-> | ->].
  - run_inv. apply Forall_singleton. left. eexists. split; [done |].
    match goal with H : false = negb _ |- _ => symmetry in H; apply negb_false_iff in H end.
    lia.
  - run_raise_step; [| run_raise_step].
    run_raise_step. apply Forall_singleton. by right.
Qed.

Lemma balance_change_poll_pending sender base_denom old amount (w w' : W) ts :
  idle_polls respond cfg (check_balance_change sender base_denom old amount) w ts w' ->
  Forall (pending_poll (cli_balance Cronos sender base_denom)
            (fun balance => balance = old - amount)) ts.
Proof.
  apply idle_polls_Forall.
  - intros w0 [] w1 t Hrun Ha; [done |].
    eapply check_balance_change_pending; [exact Hrun | by left].
  - intros w0 w1 t Hrun.
    eapply check_balance_change_pending; [exact Hrun | by right].
Qed.

Lemma incentivized_calls_flat receiver sender relayer old_amt_fee old_amt_fee_caller
    old_amt_sender_fee rsp rsp_tx packet_seq rsp_fee polls amount amount_caller
    node rsp_back polls_back changed :
  fee_calls ext receiver sender relayer old_amt_fee old_amt_fee_caller
    old_amt_sender_fee rsp rsp_tx packet_seq rsp_fee polls amount amount_caller
  ++ refund_calls receiver sender node rsp_back polls_back changed
  = Obs (cli_address Chainmain "signer2") (Ret receiver)
    :: Obs (cli_address Cronos "signer2") (Ret sender)
    :: Obs (cli_address Cronos "signer1") (Ret relayer)
    :: Obs (cli_balance Cronos relayer "ibcfee") (Ret old_amt_fee)
    :: Obs (cli_balance Cronos (eth_to_bech32 ext RELAYER_CALLER) "ibcfee")
         (Ret old_amt_fee_caller)
    :: Obs (cli_balance Cronos sender "ibcfee") (Ret old_amt_sender_fee)
    :: Obs (cli_balance Cronos sender "basetcro") (Ret 30000000000100000000000)
    :: Obs (cli_balance Chainmain receiver "basecro") (Ret 1000000000000000000000)
    :: Obs (cli_ibc_transfer Cronos sender receiver "1000basetcro" "channel-0" 1
              "0basecro" None) (Ret rsp)
    :: Obs (cli_event_query_tx_for Cronos (rsp_txhash rsp)) (Ret rsp_tx)
    :: Obs (cli_pay_packet_fee Cronos "transfer" "channel-0" packet_seq
              "10ibcfee" "10ibcfee" "10ibcfee" sender) (Ret rsp_fee)
    :: Obs (cli_balance Cronos sender "ibcfee") (Ret (old_amt_sender_fee - 20))
    :: polls
    ++ Obs (cli_balance Cronos relayer "ibcfee") (Ret amount)
    :: Obs (cli_balance Cronos (eth_to_bech32 ext RELAYER_CALLER) "ibcfee")
         (Ret amount_caller)
    :: Obs (cli_balances Cronos sender)
         (Ret [ Coin "basetcro" (str_int (30000000000100000000000 - 1000));
                Coin "ibcfee" (str_int (old_amt_sender_fee - 20)) ])
    :: Obs (node_rpc Chainmain 0) (Ret node)
    :: Obs (cli_ibc_denom_trace Cronos "transfer/channel-0/basetcro" node)
         (Ret (DenomTrace "transfer/channel-0" "basetcro"))
    :: Obs (cli_balances Chainmain receiver)
         (Ret [ Coin "basecro" "1000000000000000000000";
                Coin (ibc_denom "channel-0" "basetcro") "1000" ])
    :: Obs (cli_ibc_transfer Chainmain receiver sender
              ("1000" +:+ ibc_denom "channel-0" "basetcro") "channel-0" 1
              "100000000basecro" None) (Ret rsp_back)
    :: polls_back
    ++ [ Obs (cli_balance Cronos sender "basetcro") (Ret changed);
         Obs (cli_balance Cronos sender "basetcro") (Ret 30000000000100000000000);
         Obs (cli_balance Chainmain receiver "basecro")
           (Ret (1000000000000000000000 - 100000000)) ].
Proof. rewrite fee_calls_flat. reflexivity. Qed.

(** X10. A passing [ibc_incentivized_transfer] makes, after the fee checks,
    exactly the calls of [refund_calls]: it sends the 1000 units back with
    fees "100000000basecro", waits until the sender's basetcro balance is no
    longer the pre-transfer one minus 1000, then reads that balance as
    30000000000100000000000 again and the receiver's basecro balance as
    1000000000000000000000 - 100000000.  It returns 1000 together with the
    packet sequence it parsed from the ["packet_sequence"] attribute of the
    send_packet event, which is the sequence it paid the fee for. *)
Theorem incentivized_round_trip (w w' : W) (out : Z * Z) tr :
  run respond (ibc_incentivized_transfer ext cfg) w = (Ret out, w', tr) ->
  exists receiver sender relayer old_amt_fee old_amt_fee_caller old_amt_sender_fee
         rsp rsp_tx packet_seq rsp_fee polls amount amount_caller
         node rsp_back polls_back changed evt seq_str,
    tr = fee_calls ext receiver sender relayer old_amt_fee old_amt_fee_caller
           old_amt_sender_fee rsp rsp_tx packet_seq rsp_fee polls amount amount_caller
         ++ refund_calls receiver sender node rsp_back polls_back changed
    /\ out = (1000, packet_seq)
    /\ find_log_event_attrs ext (rsp_events rsp_tx) "send_packet" has_packet_sequence
       = Ret evt
    /\ evt !! "packet_sequence" = Some seq_str
    /\ py_int ext seq_str = Ret packet_seq
    /\ rsp_code rsp_back = 0
    /\ changed <> 30000000000100000000000 - 1000
    /\ Forall (pending_poll (cli_balance Cronos sender "basetcro")
                 (fun balance => balance = 30000000000100000000000 - 1000)) polls_back.
Proof.
  intros H. unfold ibc_incentivized_transfer in H.
  run_inv.
  match goal with
  | H : run _ (wait_for_fn _ _ (check_fee _ _ _ _ _) _) _ = (Ret _, _, _) |- _ =>
    apply run_wait_for_fn_ret in H as (? & ? & ? & ? & _ & H & ? & ->);
    apply check_fee_ready in H as (amount & amount_caller & -> & _); [| done]
  end.
  match goal with
  | H : run _ (wait_for_fn _ _ (check_balance_change _ _ _ _) _) _ = (Ret _, _, _) |- _ =>
    apply run_wait_for_fn_ret in H as (? & ? & ? & ? & Hidle & H & ? & ->);
    apply check_balance_change_ready in H as (changed & -> & Hchanged); [| done];
    apply balance_change_poll_pending in Hidle
  end.
  subst. do 19 eexists. split.
  - etrans; [rewrite <- ?app_assoc, ?app_nil_r; cbn [app]; reflexivity |].
    rewrite incentivized_calls_flat. reflexivity.
  - repeat match goal with |- _ /\ _ => split end;
      try eassumption; try reflexivity.
Qed.
End WayBack.

Lemma incentivized_round_trip_witness :
  exists receiver sender relayer old_amt_fee old_amt_fee_caller old_amt_sender_fee
         rsp rsp_tx packet_seq rsp_fee polls amount amount_caller
         node rsp_back polls_back changed evt seq_str,
    (run (scripted rewarding_ledgers)
       (ibc_incentivized_transfer plain_externals one_second_polls) 0%nat).2
    = fee_calls plain_externals receiver sender relayer old_amt_fee old_amt_fee_caller
        old_amt_sender_fee rsp rsp_tx packet_seq rsp_fee polls amount amount_caller
      ++ refund_calls receiver sender node rsp_back polls_back changed
    /\ (1000, 7) = (1000, packet_seq)
    /\ find_log_event_attrs plain_externals (rsp_events rsp_tx) "send_packet"
         has_packet_sequence = Ret evt
    /\ evt !! "packet_sequence" = Some seq_str
    /\ py_int plain_externals seq_str = Ret packet_seq
    /\ rsp_code rsp_back = 0
    /\ changed <> 30000000000100000000000 - 1000
    /\ Forall (pending_poll (cli_balance Cronos sender "basetcro")
                 (fun balance => balance = 30000000000100000000000 - 1000)) polls_back.
Proof.
  apply (incentivized_round_trip (scripted rewarding_ledgers) plain_externals
           one_second_polls 0%nat 24%nat (1000, 7)).
  vm_compute. reflexivity.
Defined.

(** ** Reading any run forwards *)

Section RunForward.
Context {W : Type} (respond : forall q : query, W -> result (answer q) * W).

Lemma run_bind_inv {A B} (p : prog A) (f : A -> prog B) (w w' : W) (r : result B) tr :
  run respond (p ≫= f) w = (r, w', tr) ->
  (exists e, run respond p w = (Raise e, w', tr) /\ r = Raise e)
  \/ (exists a w1 t1 t2,
        run respond p w = (Ret a, w1, t1)
        /\ run respond (f a) w1 = (r, w', t2)
        /\ tr = t1 ++ t2).
Proof.
  rewrite run_bind.
  destruct (run respond p w) as [[[a | e] w1] t1].
  - destruct (run respond (f a) w1) as [[r2 w2] t2] eqn:Hf.
    intros [= -> -> <-]. right. by exists a, w1, t1, t2.
  - intros [= <- <- <-]. left. by exists e.
Qed.

Lemma run_assert_raise_trace (c : bool) (w w' : W) (e : exn) tr :
  run respond (assert_ c) w = (Raise e, w', tr) -> tr = [].
Proof. destruct c; cbn; [done | by intros [= _ _ <-]]. Qed.

Lemma run_lift_raise_trace {A} (x : result A) (w w' : W) (e : exn) tr :
  run respond (lift x) w = (Raise e, w', tr) -> tr = [].
Proof. cbn. by intros [= _ _ <-]. Qed.

Lemma run_getitem_raise_trace (d : gmap string string) (k : string) (w w' : W)
    (e : exn) tr :
  run respond (getitem d k) w = (Raise e, w', tr) -> tr = [].
Proof. unfold getitem. destruct (d !! k); cbn; by intros [= _ _ <-]. Qed.
End RunForward.

(** One statement of a harness function, whatever the outcome of the run:
    either it raised, which fixes the rest of the trace, or it went through. *)
Ltac run_fwd_step Hfee :=
  match goal with
  | H : run _ ?p _ = (_, _, _) |- _ =>
    lazymatch p with
    | mbind _ ?p0 =>
      let Hp := fresh "Hp" in
      apply run_bind_inv in H as [(? & H & ->) | (? & ? & ? & ? & Hp & H & ->)];
      [ lazymatch p0 with
        | call ?q => apply (run_call_raise _ q) in H as [_ ->]
        | assert_ _ => apply run_assert_raise_trace in H as ->
        | lift _ => apply run_lift_raise_trace in H as ->
        | getitem _ _ => apply run_getitem_raise_trace in H as ->
        end; cbn in Hfee; discriminate Hfee
      | lazymatch p0 with
        | call ?q => apply (run_call_ret _ q) in Hp as [_ ->]
        | assert_ _ => apply run_assert_ret in Hp as (Hp & -> & ->)
        | lift _ => apply run_lift_ret in Hp as (Hp & -> & ->)
        | getitem _ _ => apply run_getitem_ret in Hp as (Hp & -> & ->)
        end;
        cbn in Hfee ]
    end
  end.

(** X11. Whatever way a run of [ibc_incentivized_transfer] ends, it calls
    [pay_packet_fee] only after it has read the sender's basetcro balance
    as 30000000000100000000000 and the receiver's basecro balance as
    1000000000000000000000 and has had the transfer accepted with code 0. *)
Theorem fee_paid_only_after_acceptance {W : Type}
    (respond : forall q : query, W -> result (answer q) * W)
    (ext : externals) (cfg : poller) (w w' : W) (r : result (Z * Z)) tr :
  run respond (ibc_incentivized_transfer ext cfg) w = (r, w', tr) ->
  existsb is_pay_packet_fee tr = true ->
  exists receiver sender relayer old_amt_fee old_amt_fee_caller old_amt_sender_fee
         rsp rsp_tx rest,
    tr = [ Obs (cli_address Chainmain "signer2") (Ret receiver);
           Obs (cli_address Cronos "signer2") (Ret sender);
           Obs (cli_address Cronos "signer1") (Ret relayer);
           Obs (cli_balance Cronos relayer "ibcfee") (Ret old_amt_fee);
           Obs (cli_balance Cronos (eth_to_bech32 ext RELAYER_CALLER) "ibcfee")
             (Ret old_amt_fee_caller);
           Obs (cli_balance Cronos sender "ibcfee") (Ret old_amt_sender_fee);
           Obs (cli_balance Cronos sender "basetcro") (Ret 30000000000100000000000);
           Obs (cli_balance Chainmain receiver "basecro") (Ret 1000000000000000000000);
           Obs (cli_ibc_transfer Cronos sender receiver "1000basetcro" "channel-0" 1
                  "0basecro" None) (Ret rsp);
           Obs (cli_event_query_tx_for Cronos (rsp_txhash rsp)) (Ret rsp_tx) ]
         ++ rest
    /\ rsp_code rsp = 0.
Proof.
  intros H Hfee. unfold ibc_incentivized_transfer in H.
  do 15 run_fwd_step Hfee.
  repeat match goal with
  | E : (_ =? _) = true |- _ => apply Z.eqb_eq in E
  end.
  subst. do 9 eexists. split; [reflexivity | done].
Qed.

Lemma fee_paid_only_after_acceptance_witness :
  exists receiver sender relayer old_amt_fee old_amt_fee_caller old_amt_sender_fee
         rsp rsp_tx rest,
    (run (scripted rewarding_ledgers)
       (ibc_incentivized_transfer plain_externals one_second_polls) 0%nat).2
    = [ Obs (cli_address Chainmain "signer2") (Ret receiver);
        Obs (cli_address Cronos "signer2") (Ret sender);
        Obs (cli_address Cronos "signer1") (Ret relayer);
        Obs (cli_balance Cronos relayer "ibcfee") (Ret old_amt_fee);
        Obs (cli_balance Cronos (eth_to_bech32 plain_externals RELAYER_CALLER) "ibcfee")
          (Ret old_amt_fee_caller);
        Obs (cli_balance Cronos sender "ibcfee") (Ret old_amt_sender_fee);
        Obs (cli_balance Cronos sender "basetcro") (Ret 30000000000100000000000);
        Obs (cli_balance Chainmain receiver "basecro") (Ret 1000000000000000000000);
        Obs (cli_ibc_transfer Cronos sender receiver "1000basetcro" "channel-0" 1
               "0basecro" None) (Ret rsp);
        Obs (cli_event_query_tx_for Cronos (rsp_txhash rsp)) (Ret rsp_tx) ]
      ++ rest
    /\ rsp_code rsp = 0.
Proof.
  apply (fee_paid_only_after_acceptance (scripted rewarding_ledgers) plain_externals
           one_second_polls 0%nat 24%nat (Ret (1000, 7))); vm_compute; reflexivity.
Defined.

(** On ledgers where the sender holds another amount the run stops at the
    first assertion, eight reads in, and no fee is paid. *)
Lemma underfunded_sender_pays_no_fee :
  run (scripted underfunded_ledgers)
    (ibc_incentivized_transfer plain_externals one_second_polls) 0%nat
  = (Raise AssertionError, 8%nat,
     [ Obs (cli_address Chainmain "signer2") (Ret "crc1signer2");
       Obs (cli_address Cronos "signer2") (Ret "crc1signer2");
       Obs (cli_address Cronos "signer1") (Ret "crc1signer1");
       Obs (cli_balance Cronos "crc1signer1" "ibcfee") (Ret 1000);
       Obs (cli_balance Cronos RELAYER_CALLER "ibcfee") (Ret 1000);
       Obs (cli_balance Cronos "crc1signer2" "ibcfee") (Ret 1000);
       Obs (cli_balance Cronos "crc1signer2" "basetcro") (Ret 1000);
       Obs (cli_balance Chainmain "crc1signer2" "basecro") (Ret 1000) ]).
Proof. vm_compute. reflexivity. Qed.

Section PollForward.
Context {W : Type} (respond : forall q : query, W -> result (answer q) * W).

Lemma existsb_Forall_false {A} (f : A -> bool) (l : list A) :
  Forall (fun x => f x = false) l -> existsb f l = false.
Proof. induction 1 as [| x l Hx _ IH]; [done |]. cbn. by rewrite Hx, IH. Qed.

(** Whatever way a wait ends, it made no calls other than its predicate's. *)
Lemma run_poll_Forall {A} `{Truthy A} (cfg : poller) (fn : prog A) (Q : obs -> Prop) :
  (forall w r w' t, run respond fn w = (r, w', t) -> Forall Q t) ->
  forall n w r w' tr,
    run respond (poll cfg n fn) w = (r, w', tr) -> Forall Q tr.
Proof.
  intros Hfn. induction n as [| n IH]; intros w r w' tr.
  - cbn. intros [= _ _ <-]. constructor.
  - cbn [poll]. rewrite run_bind. unfold attempt.
    rewrite run_try_except, run_bind.
    destruct (run respond fn w) as [[[a | e] wa] ta] eqn:Hrun.
    + apply Hfn in Hrun. cbn. destruct (truthy a).
      * cbn. intros [= _ _ <-]. by rewrite !app_nil_r.
      * destruct (run respond (poll cfg n fn) wa) as [[r2 w2] t2] eqn:Hrest.
        intros [= _ _ <-]. rewrite app_nil_r.
        apply Forall_app. split; [done | by eapply IH].
    + apply Hfn in Hrun.
      destruct (on_error cfg); [by intros [= _ _ <-] |].
      destruct e; try by intros [= _ _ <-].
      cbn. destruct (run respond (poll cfg n fn) wa) as [[r2 w2] t2] eqn:Hrest.
      intros [= _ _ <-]. rewrite app_nil_r.
      apply Forall_app. split; [done | by eapply IH].
Qed.

Lemma assert_trace_balance_calls expected addr (w w' : W) (r : result bool) t :
  run respond (assert_trace_balance expected addr) w = (r, w', t) ->
  Forall (fun o => is_return_transfer o = false) t.
Proof.
  unfold assert_trace_balance. rewrite run_bind. cbn [call run].
  destruct (respond _ w) as [[bal | e] w1]; [| intros [= _ _ <-]; by repeat constructor].
  destruct (run respond _ w1) as [[r2 w2] t2] eqn:Hrest. intros [= _ _ <-].
  repeat constructor.
  destruct (len bal >? 1); [| by injection Hrest as _ _ <-].
  rewrite run_bind in Hrest.
  destruct (bool_decide _); cbn in Hrest; by injection Hrest as _ _ <-.
Qed.

Lemma run_bind_assoc {A B C} (p : prog A) (f : A -> prog B) (g : B -> prog C) (w : W) :
  run respond ((p ≫= f) ≫= g) w = run respond (p ≫= fun a => f a ≫= g) w.
Proof.
  rewrite !run_bind.
  destruct (run respond p w) as [[[a | e] w1] t1]; [| done].
  rewrite run_bind.
  destruct (run respond (f a) w1) as [[[b | e] w2] t2]; [| done].
  destruct (run respond (g b) w2) as [[r w3] t3]. by rewrite app_assoc.
Qed.

Lemma run_mret_bind {A B} (a : A) (f : A -> prog B) (w : W) :
  run respond (mret a ≫= f) w = run respond (f a) w.
Proof. reflexivity. Qed.

Lemma pending_trace_poll_not_transfer addr (P : list coin -> Prop) (polls : list obs) :
  Forall (pending_poll (cli_balances Chainmain addr) P) polls ->
  existsb is_return_transfer polls = false.
Proof.
  intros Hpolls. apply existsb_Forall_false.
  eapply Forall_impl; [exact Hpolls |].
  by intros o [(v & -> & _) | ->].
Qed.

End PollForward.

Ltac fwd H Hfee :=
  repeat rewrite run_bind_assoc in H;
  lazymatch type of H with
  | run _ (mbind _ ?p0) _ = _ =>
    lazymatch p0 with
    | mret _ => rewrite run_mret_bind in H
    | index _ _ => cbn [index lookup list_lookup] in H
    | _ => run_fwd_step Hfee
    end
  end.

(** X12. Whatever way a run of [ibc_multi_transfer] ends, it submits a
    transfer back from Chainmain only after the outbound transfer has
    settled: the calls up to there are those of [outbound_calls], ending on
    the receiver's balance list with the 1000 units under the derived
    denomination. *)
Theorem return_leg_only_after_settlement {W : Type}
    (respond : forall q : query, W -> result (answer q) * W)
    (cfg : poller) (w w' : W) (r : result unit) tr :
  run respond (ibc_multi_transfer cfg) w = (r, w', tr) ->
  existsb is_return_transfer tr = true ->
  exists sender receiver rsp node polls rest,
    tr = outbound_calls sender receiver rsp node polls ++ rest
    /\ rsp_code rsp = 0
    /\ Forall (pending_poll (cli_balances Chainmain receiver)
                 (fun bal => len bal <= 1)) polls.
Proof.
  intros H Hfee. unfold ibc_multi_transfer in H.
  change (map (fun i => "user" +:+ str_int i) (range 1 2)) with ["user1"] in H.
  change (range 0 2) with [0; 1] in H.
  cbn [comprehension enumerate length seq combine for_fold for_] in H.
  repeat fwd H Hfee.
  repeat rewrite run_bind_assoc in H.
  repeat match goal with
  | H : context [mret ?a ≫= fun addr => assert_trace_balance ?e addr] |- _ =>
    change (mret a ≫= fun addr => assert_trace_balance e addr)
      with (assert_trace_balance e a) in H
  end.
  apply run_bind_inv in H as [(e & H & ->) | (u & w1 & t1 & t2 & Hwait & H & ->)].
  - exfalso. unfold wait_for_fn in H.
    apply (run_poll_Forall respond _ _ (fun o => is_return_transfer o = false)) in H;
      [| intros ? ? ? ?; apply assert_trace_balance_calls].
    apply existsb_Forall_false in H. congruence.
  - apply run_wait_for_fn_ret in Hwait as (w2 & polls & b & t & Hidle & Hlast & Hb & ->).
    apply assert_trace_balance_ready in Hlast as ->; [| done].
    apply trace_poll_pending in Hidle.
    repeat match goal with
    | E : (_ =? _) = true |- _ => apply Z.eqb_eq in E
    | E : bool_decide _ = true |- _ => apply bool_decide_eq_true in E
    end.
    subst. do 6 eexists. split; [| split; [eassumption | exact Hidle]].
    etrans; [rewrite <- ?app_assoc; cbn [app]; reflexivity |].
    rewrite outbound_calls_app. reflexivity.
Qed.

Lemma return_leg_only_after_settlement_witness :
  exists sender receiver rsp node polls rest,
    (run (scripted settling_ledgers) (ibc_multi_transfer one_second_polls) 0%nat).2
    = outbound_calls sender receiver rsp node polls ++ rest
    /\ rsp_code rsp = 0
    /\ Forall (pending_poll (cli_balances Chainmain receiver)
                 (fun bal => len bal <= 1)) polls.
Proof.
  apply (return_leg_only_after_settlement (scripted settling_ledgers)
           one_second_polls 0%nat 15%nat (Ret tt)); vm_compute; reflexivity.
Defined.

(** On ledgers that never credit the receiver the wait times out and no
    transfer back is submitted. *)
Lemma stuck_receiver_no_return_leg :
  (run (scripted stuck_ledgers) (ibc_multi_transfer three_polls) 0%nat).1.1
  = Raise TimeoutError
  /\ existsb is_return_transfer
       (run (scripted stuck_ledgers) (ibc_multi_transfer three_polls) 0%nat).2
     = false.
Proof. vm_compute. done. Qed.

(** ** The waiters without a timeout argument *)

Section Waiters.
Context {W : Type} (respond : forall q : query, W -> result (answer q) * W).
Context (cfg : poller).

Lemma check_status_run tcontract id seq (w w' : W) (r : result Z) t :
  run respond (check_status tcontract id seq) w = (r, w', t) ->
  t = [Obs (caller_getStatus tcontract id seq) r].
Proof.
  unfold check_status. rewrite run_bind. cbn [call run].
  destruct (respond _ w) as [[status | e] w1]; cbn; by intros [= <- _ <-].
Qed.

Lemma check_tx_run cli adr num_txs (w w' : W) (r : result bool) t :
  run respond (check_tx cli adr num_txs) w = (r, w', t) ->
  exists r0,
    t = [Obs (cli_query_all_txs cli adr) r0]
    /\ match r0 with
       | Ret txs => r = Ret (len txs >? num_txs)
       | Raise e => r = Raise e
       end.
Proof.
  unfold check_tx. rewrite run_bind. cbn [call run].
  destruct (respond _ w) as [[txs | e] w1]; cbn; intros [= <- _ <-];
    eexists; by split.
Qed.

Lemma check_channel_ready_run cli connid id target (w w' : W) (r : result bool) t :
  run respond (check_channel_ready cli connid id target) w = (r, w', t) ->
  exists r0,
    t = [Obs (cli_ibc_query_channels cli connid) r0]
    /\ match r0 with
       | Ret channels =>
         r = Ret (bool_decide
                    (next (map state (filter (fun ch => channel_id ch = id) channels))
                     = Some target))
       | Raise e => r = Raise e
       end.
Proof.
  unfold check_channel_ready. rewrite run_bind. cbn [call run].
  destruct (respond _ w) as [[channels | e] w1]; cbn.
  - destruct (next _) as [st |] eqn:Hnext; cbn; intros [= <- _ <-];
      exists (Ret channels); (split; [done |]); f_equal.
    + rewrite Hnext. apply bool_decide_ext. naive_solver.
    + rewrite Hnext. symmetry. by apply bool_decide_eq_false_2.
  - intros [= <- _ <-]. eexists. by split.
Qed.

(** X13. Called without a timeout, [wait_for_status_change] returns as soon
    as one poll of [getStatus] gives a status other than [PENDING], be it
    [SUCCESS] or [FAIL]; every poll before that gave [PENDING] (or was a
    swallowed transient failure). *)
Theorem wait_for_status_change_returns (tcontract id : string) (seq : Z)
    (w w' : W) tr :
  run respond (wait_for_status_change cfg tcontract id seq None) w = (Ret tt, w', tr) ->
  exists polls status,
    tr = polls ++ [Obs (caller_getStatus tcontract id seq) (Ret status)]
    /\ status <> Status_value PENDING
    /\ Forall (pending_poll (caller_getStatus tcontract id seq)
                 (fun s => s = Status_value PENDING)) polls.
Proof.
  unfold wait_for_status_change.
  intros (w1 & polls & status & t & Hidle & Hlast & Hstatus & ->)%run_wait_for_fn_ret.
  apply check_status_run in Hlast as ->.
  exists polls, status. split; [done |]. split.
  - unfold truthy, truthy_int in Hstatus. cbn. apply negb_true_iff in Hstatus. lia.
  - revert Hidle. apply idle_polls_Forall.
    + intros w0 s w2 t Hrun Hs. apply check_status_run in Hrun as ->.
      apply Forall_singleton. left. exists s. split; [done |].
      unfold truthy, truthy_int in Hs. cbn. apply negb_false_iff in Hs. lia.
    + intros w0 w2 t Hrun. apply check_status_run in Hrun as ->.
      apply Forall_singleton. by right.
Qed.

(** X14. Called without a timeout, [wait_for_check_tx] returns exactly after
    a query that lists more than [num_txs] transactions; every query before
    that listed at most [num_txs] (or was a swallowed transient failure). *)
Theorem wait_for_check_tx_returns (cli : chain) (adr : string) (num_txs : Z)
    (w w' : W) tr :
  run respond (wait_for_check_tx cfg cli adr num_txs None) w = (Ret tt, w', tr) ->
  exists polls txs,
    tr = polls ++ [Obs (cli_query_all_txs cli adr) (Ret txs)]
    /\ num_txs < len txs
    /\ Forall (pending_poll (cli_query_all_txs cli adr)
                 (fun txs0 => len txs0 <= num_txs)) polls.
Proof.
  unfold wait_for_check_tx.
  intros (w1 & polls & b & t & Hidle & Hlast & Hb & ->)%run_wait_for_fn_ret.
  apply check_tx_run in Hlast as ([txs | e] & -> & Hr); [| done].
  injection Hr as ->. exists polls, txs. split; [done |]. split.
  - unfold truthy, truthy_bool in Hb. lia.
  - revert Hidle. apply idle_polls_Forall.
    + intros w0 b0 w2 t Hrun Hb0.
      apply check_tx_run in Hrun as ([txs0 | e] & -> & Hr); [| done].
      injection Hr as ->. apply Forall_singleton. left. exists txs0.
      split; [done |]. unfold truthy, truthy_bool in Hb0. lia.
    + intros w0 w2 t Hrun.
      apply check_tx_run in Hrun as ([txs0 | e] & -> & Hr); [done |].
      injection Hr as <-. apply Forall_singleton. by right.
Qed.

(** X15. [wait_for_check_channel_ready] returns exactly after a query in
    whose channel list the first channel with the requested id is in the
    target state (["STATE_OPEN"] when none is given); in every query before
    that the channel was missing or in another state (or the query was a
    swallowed transient failure). *)
Theorem wait_for_check_channel_ready_returns (cli : chain) (connid id : string)
    (target : option string) (w w' : W) tr :
  run respond (wait_for_check_channel_ready cfg cli connid id target) w
  = (Ret tt, w', tr) ->
  exists polls channels,
    tr = polls ++ [Obs (cli_ibc_query_channels cli connid) (Ret channels)]
    /\ next (map state (filter (fun ch => channel_id ch = id) channels))
       = Some (default "STATE_OPEN" target)
    /\ Forall (pending_poll (cli_ibc_query_channels cli connid)
                 (fun chs =>
                    next (map state (filter (fun ch => channel_id ch = id) chs))
                    <> Some (default "STATE_OPEN" target))) polls.
Proof.
  unfold wait_for_check_channel_ready.
  intros (w1 & polls & b & t & Hidle & Hlast & Hb & ->)%run_wait_for_fn_ret.
  apply check_channel_ready_run in Hlast as ([channels | e] & -> & Hr); [| done].
  injection Hr as ->. exists polls, channels. split; [done |]. split.
  - by apply bool_decide_eq_true in Hb.
  - revert Hidle. apply idle_polls_Forall.
    + intros w0 b0 w2 t Hrun Hb0.
      apply check_channel_ready_run in Hrun as ([chs | e] & -> & Hr); [| done].
      injection Hr as ->. apply Forall_singleton. left. exists chs.
      split; [done |]. by apply bool_decide_eq_false in Hb0.
    + intros w0 w2 t Hrun.
      apply check_channel_ready_run in Hrun as ([chs | e] & -> & Hr); [done |].
      injection Hr as <-. apply Forall_singleton. by right.
Qed.
End Waiters.

Lemma wait_for_status_change_returns_witness :
  exists polls status,
    (run (scripted failing_packet)
       (wait_for_status_change one_second_polls "0xc0" "channel-0" 1 None) 0%nat).2
    = polls ++ [Obs (caller_getStatus "0xc0" "channel-0" 1) (Ret status)]
    /\ status <> Status_value PENDING
    /\ Forall (pending_poll (caller_getStatus "0xc0" "channel-0" 1)
                 (fun s => s = Status_value PENDING)) polls.
Proof.
  apply (wait_for_status_change_returns (scripted failing_packet) one_second_polls
           "0xc0" "channel-0" 1 0%nat 3%nat).
  vm_compute. reflexivity.
Defined.

Lemma wait_for_check_tx_returns_witness :
  exists polls txs,
    (run (scripted arriving_tx)
       (wait_for_check_tx one_second_polls Chainmain "cro1ica" 1 None) 0%nat).2
    = polls ++ [Obs (cli_query_all_txs Chainmain "cro1ica") (Ret txs)]
    /\ 1 < len txs
    /\ Forall (pending_poll (cli_query_all_txs Chainmain "cro1ica")
                 (fun txs0 => len txs0 <= 1)) polls.
Proof.
  apply (wait_for_check_tx_returns (scripted arriving_tx) one_second_polls
           Chainmain "cro1ica" 1 0%nat 3%nat).
  vm_compute. reflexivity.
Defined.

Lemma wait_for_check_channel_ready_returns_witness :
  exists polls channels,
    (run (scripted opening_channel)
       (wait_for_check_channel_ready one_second_polls Cronos "connection-0"
          "channel-1" None) 0%nat).2
    = polls ++ [Obs (cli_ibc_query_channels Cronos "connection-0") (Ret channels)]
    /\ next (map state (filter (fun ch => channel_id ch = "channel-1") channels))
       = Some (default "STATE_OPEN" None)
    /\ Forall (pending_poll (cli_ibc_query_channels Cronos "connection-0")
                 (fun chs =>
                    next (map state (filter (fun ch => channel_id ch = "channel-1") chs))
                    <> Some (default "STATE_OPEN" None))) polls.
Proof.
  apply (wait_for_check_channel_ready_returns (scripted opening_channel)
           one_second_polls Cronos "connection-0" "channel-1" None 0%nat 3%nat).
  vm_compute. reflexivity.
Defined.
